(** * Neuralangelo GUI backend: job supervision and progress streaming

    A shallow embedding of the Python backend
    ([backend/training_manager.py], [backend/colmap_wrapper.py],
    [backend/server.py]) and the properties of its specification.

    Conventions of the embedding.
    - A Python function that can raise returns a [result]; a function that
      also reads or writes objects threads the state explicitly and returns
      the result together with the state it leaves (an exception does not
      roll the state back).
    - [str] is modelled by [string] restricted to ASCII; a [dict] used as a
      table is a [gmap]; a [list] is a [list].
    - A Python [float] obtained from [float(s)] is carried as the exact
      decimal value that [s] denotes (a rational), or an infinity or NaN;
      rounding to binary64, overflow to an infinity and the sign of zero
      are not modelled.
    - A coroutine runs from its call to its return without other tasks in
      between; the monitoring task that [start_training] creates is
      recorded, not run.
    - The operating system (processes, the file system, the external
      commands) is part of the state; what an external command does is an
      explicit parameter, and so is whether what it wrote is UTF-8.
    - What the code cannot decide is read from the state: which
      exception a failed write or a failed launch raises, and whether
      the event loop has already closed the handle of a reaped child.
    - A [Path] is carried as the text [str] prints for it on a POSIX
      system. *)

From Stdlib Require Import String Ascii ZArith QArith List Bool Lia.
From stdpp Require Import gmap strings list pretty sorting.
Import ListNotations.

Local Open Scope Z_scope.

(** ** Exceptions and the result monad *)

Inductive Exn : Type :=
  | KeyError
  | IndexError
  | ValueError
  | UnicodeDecodeError
  | OSError
  | FileNotFoundError
  | FileExistsError
  | ProcessLookupError
  | TimeoutError
  | SendError
  | RuntimeError (msg : string).

Inductive result (A : Type) : Type :=
  | Return (a : A)
  | Raise (e : Exn).
Arguments Return {A} a.
Arguments Raise {A} e.

Definition rbind {A B : Type} (r : result A) (k : A -> result B) : result B :=
  match r with
  | Return a => k a
  | Raise e => Raise e
  end.

Declare Scope result_scope.
Delimit Scope result_scope with result.
Notation "x <- c ;; k" := (rbind c (fun x => k))
  (at level 60, c at next level, right associativity) : result_scope.

(** [try: body except Exception: handler] for a pure body. *)
Definition try_except {A : Type} (body : result A) (handler : Exn -> result A)
  : result A :=
  match body with
  | Return a => Return a
  | Raise e => handler e
  end.

(** [for x in xs: acc = step(acc, x)], left to right, stopping at the first
    exception. *)
Fixpoint for_each {A B : Type} (step : B -> A -> result B) (xs : list A)
  (acc : B) : result B :=
  match xs with
  | [] => Return acc
  | x :: xs' => rbind (step acc x) (for_each step xs')
  end.

(** ** The [str] methods the backend uses *)

Module Str.

(** [sub in s] *)
Fixpoint contains (sub s : string) : bool :=
  if String.prefix sub s then true
  else match s with
       | EmptyString => false
       | String _ s' => contains sub s'
       end.

(** [s.split(sep)] for a one-character separator. *)
Fixpoint split (sep : ascii) (s : string) : list string :=
  match s with
  | EmptyString => [EmptyString]
  | String c s' =>
      if Ascii.eqb c sep then EmptyString :: split sep s'
      else match split sep s' with
           | [] => [String c EmptyString]
           | p :: ps => String c p :: ps
           end
  end.

(** [c.isspace()] on ASCII: tab, line feed, vertical tab, form feed,
    carriage return, the four separators 0x1c-0x1f and the space. *)
Definition is_space (c : ascii) : bool :=
  let n := nat_of_ascii c in
  ((9 <=? n) && (n <=? 13) || (28 <=? n) && (n <=? 32))%nat.

Fixpoint lstrip (s : string) : string :=
  match s with
  | EmptyString => EmptyString
  | String c s' => if is_space c then lstrip s' else s
  end.

Fixpoint rstrip (s : string) : string :=
  match s with
  | EmptyString => EmptyString
  | String c s' =>
      match rstrip s' with
      | EmptyString => if is_space c then EmptyString else String c EmptyString
      | r => String c r
      end
  end.

(** [s.strip()] *)
Definition strip (s : string) : string := rstrip (lstrip s).

(** [s.startswith(p)] *)
Definition startswith (p s : string) : bool := String.prefix p s.

Definition is_digit (c : ascii) : bool :=
  let n := nat_of_ascii c in ((48 <=? n) && (n <=? 57))%nat.

Definition digit_val (c : ascii) : Z := Z.of_nat (nat_of_ascii c) - 48.

Definition lower (c : ascii) : ascii :=
  let n := nat_of_ascii c in
  if ((65 <=? n) && (n <=? 90))%nat then ascii_of_nat (n + 32) else c.

Fixpoint lowercase (s : string) : string :=
  match s with
  | EmptyString => EmptyString
  | String c s' => String (lower c) (lowercase s')
  end.

(** The continuation of a [digitpart]: [(["_"] digit)*], longest match.
    Returns the digits read and the unread rest. *)
Fixpoint scan_tail (s : string) : list Z * string :=
  match s with
  | EmptyString => ([], s)
  | String c s' =>
      if is_digit c then
        let '(ds, r) := scan_tail s' in (digit_val c :: ds, r)
      else if Ascii.eqb c "_" then
        match s' with
        | String d s'' =>
            if is_digit d then
              let '(ds, r) := scan_tail s'' in (digit_val d :: ds, r)
            else ([], s)
        | EmptyString => ([], s)
        end
      else ([], s)
  end.

(** [digitpart ::= digit (["_"] digit)*]; no digit read when [s] does not
    start with one. *)
Definition digitpart (s : string) : list Z * string :=
  match s with
  | String c s' =>
      if is_digit c then
        let '(ds, r) := scan_tail s' in (digit_val c :: ds, r)
      else ([], s)
  | EmptyString => ([], s)
  end.

Definition digits_value (ds : list Z) : Z :=
  fold_left (fun acc d => 10 * acc + d) ds 0.

(** An optional sign: [true] for "-". *)
Definition sign (s : string) : bool * string :=
  match s with
  | String "-" s' => (true, s')
  | String "+" s' => (false, s')
  | _ => (false, s)
  end.

Definition apply_sign (neg : bool) (z : Z) : Z := if neg then - z else z.

(** [int(s)], base 10: surrounding whitespace, an optional sign, one
    [digitpart] and nothing else; [ValueError] otherwise. The interpreter's
    limit on the number of digits is not modelled. *)
Definition py_int (s : string) : result Z :=
  let '(neg, s1) := sign (strip s) in
  match digitpart s1 with
  | ((_ :: _) as ds, EmptyString) => Return (apply_sign neg (digits_value ds))
  | _ => Raise ValueError
  end.

End Str.

(** ** Paths

    A [Path] is carried as the text [str] gives for it. On a POSIX system
    that text is normalised: the components between slashes that are
    empty or "." are dropped, a root of exactly two slashes is kept and
    any other root is one slash, and the path with no root and no
    component is ".". *)

Module PurePath.

(** The components [Path(s)] keeps. *)
Definition components (s : string) : list string :=
  List.filter (fun x => negb (String.eqb x "" || String.eqb x "."))
    (Str.split "/" s).

(** The root of [Path(s)]: "" for a relative path. *)
Definition root (s : string) : string :=
  match s with
  | String "/" (String "/" (String "/" _)) => "/"
  | String "/" (String "/" _) => "//"
  | String "/" _ => "/"
  | _ => ""
  end.

Fixpoint join (parts : list string) : string :=
  match parts with
  | [] => ""
  | [x] => x
  | x :: rest => x +:+ "/" +:+ join rest
  end.

Definition format (root : string) (parts : list string) : string :=
  match root, parts with
  | EmptyString, [] => "."
  | _, _ => root +:+ join parts
  end.

End PurePath.

(** [str(Path(s))] *)
Definition normalise (s : string) : string :=
  PurePath.format (PurePath.root s) (PurePath.components s).

(** [str(Path(dir) / name)]: a [name] with a root replaces [dir]. *)
Definition path_join (dir name : string) : string :=
  match PurePath.root name with
  | EmptyString =>
      PurePath.format (PurePath.root dir)
        (PurePath.components dir ++ PurePath.components name)
  | _ => normalise name
  end.

(** ** Floats *)

Inductive PyFloat : Type :=
  | FFinite (q : Q)
  | FInf (negative : bool)
  | FNan.

Module Float.

(** [m * 10 ^ e] as a reduced fraction. *)
Definition decimal (m e : Z) : Q :=
  if 0 <=? e then Qred (Qmake (m * 10 ^ e) 1)
  else Qred (Qmake m (Z.to_pos (10 ^ (- e)))).

(** [("e" | "E") [sign] digitpart] at the end of the literal; no exponent
    is exponent 0. *)
Definition exponent (s : string) : result Z :=
  match s with
  | EmptyString => Return 0
  | String c s' =>
      if Ascii.eqb (Str.lower c) "e" then
        let '(neg, s1) := Str.sign s' in
        match Str.digitpart s1 with
        | ((_ :: _) as ds, EmptyString) =>
            Return (Str.apply_sign neg (Str.digits_value ds))
        | _ => Raise ValueError
        end
      else Raise ValueError
  end.

(** [number ::= [digitpart] "." digitpart | digitpart ["."]], then the
    exponent. *)
Definition floatnumber (s : string) : result Q :=
  let '(ip, r1) := Str.digitpart s in
  let '(fp, r2) :=
    match r1 with
    | String "." r => Str.digitpart r
    | _ => ([], r1)
    end in
  match ip, fp with
  | [], [] => Raise ValueError
  | _, _ =>
      rbind (exponent r2) (fun e =>
      Return (decimal (Str.digits_value (ip ++ fp))
                      (e - Z.of_nat (length fp))))
  end.

(** [float(s)]: surrounding whitespace, an optional sign, then "inf",
    "infinity" or "nan" in any case, or a [floatnumber]. *)
Definition py_float (s : string) : result PyFloat :=
  let '(neg, s1) := Str.sign (Str.strip s) in
  let l := Str.lowercase s1 in
  if String.eqb l "inf" || String.eqb l "infinity" then Return (FInf neg)
  else if String.eqb l "nan" then Return FNan
  else rbind (floatnumber s1) (fun q =>
       Return (FFinite (if neg then Qred (Qopp q) else q))).

End Float.

(** ** [TrainingManager._parse_training_output] *)

(** The dict [{"iteration": iteration, "loss": loss}]. *)
Record Progress : Type := {
  prog_iteration : Z;
  prog_loss : PyFloat
}.

Module Parser.

Local Open Scope result_scope.

(** The locals [iteration] and [loss] of the loop, [None] until assigned. *)
Definition Fields : Type := (option Z * option PyFloat)%type.

(** [part.split(":")[1].strip()] *)
Definition field (part : string) : result string :=
  match nth_error (Str.split ":" part) 1 with
  | Some f => Return (Str.strip f)
  | None => Raise IndexError
  end.

(** One iteration of [for part in parts]. *)
Definition parse_part (acc : Fields) (part : string) : result Fields :=
  let part := Str.strip part in
  if Str.contains "iter" part then
    f <- field part ;;
    i <- Str.py_int f ;;
    Return (Some i, snd acc)
  else if Str.contains "loss" part then
    f <- field part ;;
    l <- Float.py_float f ;;
    Return (fst acc, Some l)
  else Return acc.

(** The body of the [try] block; [Return None] stands for falling through
    to the final [return None]. *)
Definition parse_body (line : string) : result (option Progress) :=
  if Str.contains "iter" line && Str.contains "loss" line then
    fs <- for_each parse_part (Str.split "," line) (None, None) ;;
    match fs with
    | (Some iteration, Some loss) =>
        Return (Some {| prog_iteration := iteration; prog_loss := loss |})
    | _ => Return None
    end
  else Return None.

(** [except Exception as e: logger.debug(...)], then [return None]. *)
Definition _parse_training_output (line : string) : result (option Progress) :=
  try_except (parse_body line) (fun _ => Return None).

(** A part of the line whose numeric field cannot be read: it carries the
    iteration marker, or else the loss marker, and has no text after a
    colon or text that [int] (respectively [float]) rejects. *)
Definition malformed_part (part : string) : bool :=
  let part := Str.strip part in
  if Str.contains "iter" part then
    match field part with
    | Return f => match Str.py_int f with Return _ => false | Raise _ => true end
    | Raise _ => true
    end
  else if Str.contains "loss" part then
    match field part with
    | Return f =>
        match Float.py_float f with Return _ => false | Raise _ => true end
    | Raise _ => true
    end
  else false.

End Parser.

(** ** The state the backend works on *)

(** ["running"], ["paused"], ["completed"], ["error"], ["stopped"]: the
    values the code stores under the key ["status"] of a job. *)
Inductive Status : Type := running | paused | completed | error | stopped.

(** The training configuration, a [Dict] whose values are carried as the
    text they print as. *)
Abbreviation Config := (gmap string string).

(** An entry of [TrainingManager.active_trainings]. [process] is the
    process handle, identified by the pid of the child. *)
Record Job : Type := {
  process : nat;
  status : Status;
  iteration : Z;
  loss : PyFloat;
  config : Config
}.

(** The messages [start_training] and [_monitor_training] broadcast; the
    ["message"] of an error is [str(e)], carried as the exception. *)
Inductive Message : Type :=
  | training_error (project : option string) (e : Exn)
  | training_progress (project : string) (data : Progress)
  | training_log (project : string) (message : string)
  | training_complete (project : string).

(** A websocket object: whether it has been closed, and what has been
    sent through it, oldest first. *)
Record WebSocket : Type := {
  ws_closed : bool;
  ws_sent : list Message
}.

(** A child process as the operating system sees it: whether it is
    suspended, how long it takes to exit once it handles a termination
    request ([None]: it ignores the request), and how long it takes to be
    reaped after a kill. A suspended process handles no termination
    request. *)
Record Proc : Type := {
  suspended : bool;
  term_delay : option nat;
  kill_delay : nat
}.

Inductive Signal : Type := SIGSTOP | SIGCONT.

Record World : Type := {
  active_trainings : gmap string Job;  (* TrainingManager.active_trainings *)
  active_connections : list nat;       (* ConnectionManager.active_connections *)
  sockets : gmap nat WebSocket;        (* the websocket objects *)
  procs : gmap nat Proc;               (* children not yet reaped, by pid *)
  next_pid : nat;                      (* the pid the next child gets *)
  launchable : option Proc;            (* the child a spawn creates, if it can *)
  writable : bool;                     (* can the project folder be written *)
  files : gmap string Config;          (* rendered configuration files, by path *)
  environ : gmap string string;        (* os.environ *)
  tasks : list (string * nat);         (* monitoring tasks created *)
  clock : nat;                         (* elapsed time units *)
  finalised : gset nat;                (* handles whose transport is closed *)
  write_error : Exn;                   (* what a refused write raises *)
  launch_error : Exn                   (* what a refused launch raises *)
}.

Definition with_trainings (f : gmap string Job -> gmap string Job) (w : World) : World :=
  {| active_trainings := f (active_trainings w);
     active_connections := active_connections w; sockets := sockets w;
     procs := procs w; next_pid := next_pid w; launchable := launchable w;
     writable := writable w; files := files w; environ := environ w;
     tasks := tasks w; clock := clock w; finalised := finalised w;
     write_error := write_error w; launch_error := launch_error w |}.

Definition with_connections (f : list nat -> list nat) (w : World) : World :=
  {| active_trainings := active_trainings w;
     active_connections := f (active_connections w); sockets := sockets w;
     procs := procs w; next_pid := next_pid w; launchable := launchable w;
     writable := writable w; files := files w; environ := environ w;
     tasks := tasks w; clock := clock w; finalised := finalised w;
     write_error := write_error w; launch_error := launch_error w |}.

Definition with_sockets (f : gmap nat WebSocket -> gmap nat WebSocket) (w : World) : World :=
  {| active_trainings := active_trainings w;
     active_connections := active_connections w; sockets := f (sockets w);
     procs := procs w; next_pid := next_pid w; launchable := launchable w;
     writable := writable w; files := files w; environ := environ w;
     tasks := tasks w; clock := clock w; finalised := finalised w;
     write_error := write_error w; launch_error := launch_error w |}.

Definition with_procs (f : gmap nat Proc -> gmap nat Proc) (w : World) : World :=
  {| active_trainings := active_trainings w;
     active_connections := active_connections w; sockets := sockets w;
     procs := f (procs w); next_pid := next_pid w; launchable := launchable w;
     writable := writable w; files := files w; environ := environ w;
     tasks := tasks w; clock := clock w; finalised := finalised w;
     write_error := write_error w; launch_error := launch_error w |}.

Definition with_next_pid (n : nat) (w : World) : World :=
  {| active_trainings := active_trainings w;
     active_connections := active_connections w; sockets := sockets w;
     procs := procs w; next_pid := n; launchable := launchable w;
     writable := writable w; files := files w; environ := environ w;
     tasks := tasks w; clock := clock w; finalised := finalised w;
     write_error := write_error w; launch_error := launch_error w |}.

Definition with_files (f : gmap string Config -> gmap string Config) (w : World) : World :=
  {| active_trainings := active_trainings w;
     active_connections := active_connections w; sockets := sockets w;
     procs := procs w; next_pid := next_pid w; launchable := launchable w;
     writable := writable w; files := f (files w); environ := environ w;
     tasks := tasks w; clock := clock w; finalised := finalised w;
     write_error := write_error w; launch_error := launch_error w |}.

Definition with_environ (f : gmap string string -> gmap string string) (w : World) : World :=
  {| active_trainings := active_trainings w;
     active_connections := active_connections w; sockets := sockets w;
     procs := procs w; next_pid := next_pid w; launchable := launchable w;
     writable := writable w; files := files w; environ := f (environ w);
     tasks := tasks w; clock := clock w; finalised := finalised w;
     write_error := write_error w; launch_error := launch_error w |}.

Definition with_tasks (f : list (string * nat) -> list (string * nat)) (w : World) : World :=
  {| active_trainings := active_trainings w;
     active_connections := active_connections w; sockets := sockets w;
     procs := procs w; next_pid := next_pid w; launchable := launchable w;
     writable := writable w; files := files w; environ := environ w;
     tasks := f (tasks w); clock := clock w; finalised := finalised w;
     write_error := write_error w; launch_error := launch_error w |}.

Definition advance (dt : nat) (w : World) : World :=
  {| active_trainings := active_trainings w;
     active_connections := active_connections w; sockets := sockets w;
     procs := procs w; next_pid := next_pid w; launchable := launchable w;
     writable := writable w; files := files w; environ := environ w;
     tasks := tasks w; clock := (clock w + dt)%nat;
     finalised := finalised w; write_error := write_error w;
     launch_error := launch_error w |}.

Definition with_finalised (f : gset nat -> gset nat) (w : World) : World :=
  {| active_trainings := active_trainings w;
     active_connections := active_connections w; sockets := sockets w;
     procs := procs w; next_pid := next_pid w; launchable := launchable w;
     writable := writable w; files := files w; environ := environ w;
     tasks := tasks w; clock := clock w; finalised := f (finalised w);
     write_error := write_error w; launch_error := launch_error w |}.

(** ** Stateful computations that may raise *)

Definition Py (S A : Type) : Type := S -> result A * S.

Definition ret {S A : Type} (a : A) : Py S A := fun s => (Return a, s).

Definition raise {S A : Type} (e : Exn) : Py S A := fun s => (Raise e, s).

Definition bind {S A B : Type} (c : Py S A) (k : A -> Py S B) : Py S B :=
  fun s =>
    match c s with
    | (Return a, s') => k a s'
    | (Raise e, s') => (Raise e, s')
    end.

Definition get {S : Type} : Py S S := fun s => (Return s, s).

Definition modify {S : Type} (f : S -> S) : Py S unit :=
  fun s => (Return tt, f s).

(** [try: body except ...: handler e], the handler taken for the
    exceptions that [catches] selects. The state reached when the
    exception was raised is kept. *)
Definition try_catch {S A : Type} (catches : Exn -> bool) (body : Py S A)
  (handler : Exn -> Py S A) : Py S A :=
  fun s =>
    match body s with
    | (Return a, s') => (Return a, s')
    | (Raise e, s') => if catches e then handler e s' else (Raise e, s')
    end.

Definition any_exception (e : Exn) : bool := true.

Declare Scope py_scope.
Delimit Scope py_scope with py.
Notation "x <- c ;; k" := (bind c (fun x => k))
  (at level 60, c at next level, right associativity) : py_scope.
Notation "c ;;; k" := (bind c (fun _ => k))
  (at level 60, right associativity) : py_scope.

(** [for x in xs: body(x)] *)
Fixpoint for_in {S A : Type} (xs : list A) (body : A -> Py S unit) : Py S unit :=
  match xs with
  | [] => ret tt
  | x :: xs' => bind (body x) (fun _ => for_in xs' body)
  end.

(** ** [ConnectionManager] (server.py) *)

Module ConnectionManager.

Local Open Scope py_scope.

(** [await connection.send_json(message)]: raises on a closed websocket,
    and otherwise delivers the message. *)
Definition send_json (connection : nat) (message : Message) : Py World unit :=
  fun w =>
    match sockets w !! connection with
    | Some ws =>
        if ws_closed ws then (Raise SendError, w)
        else (Return tt,
              with_sockets
                <[connection := {| ws_closed := false;
                                   ws_sent := ws_sent ws ++ [message] |}]> w)
    | None => (Raise SendError, w)
    end.

(** [connect]: [accept] and append to the list. *)
Definition connect (websocket : nat) : Py World unit :=
  modify (with_connections (fun l => l ++ [websocket])).

(** [l.remove(x)]: drops the first occurrence. *)
Fixpoint list_remove (x : nat) (l : list nat) : option (list nat) :=
  match l with
  | [] => None
  | y :: l' =>
      if Nat.eqb x y then Some l'
      else match list_remove x l' with
           | Some r => Some (y :: r)
           | None => None
           end
  end.

(** [disconnect]: [self.active_connections.remove(websocket)], a
    [ValueError] when the websocket is not in the list. *)
Definition disconnect (websocket : nat) : Py World unit :=
  w <- get ;;
  match list_remove websocket (active_connections w) with
  | Some l => modify (with_connections (fun _ => l))
  | None => raise ValueError
  end.

(** [broadcast]: for each connection, [try: send_json except: pass]. *)
Definition broadcast (message : Message) : Py World unit :=
  w <- get ;;
  for_in (active_connections w) (fun connection =>
    try_catch any_exception (send_json connection message)
      (fun _ => ret tt)).

(** Publishing a sequence of events, one [broadcast] after the other. *)
Fixpoint broadcast_all (messages : list Message) : Py World unit :=
  match messages with
  | [] => ret tt
  | m :: ms => broadcast m ;;; broadcast_all ms
  end.

End ConnectionManager.

(** ** The process primitives [TrainingManager] calls *)

Module OS.

Local Open Scope py_scope.

(** [asyncio.create_subprocess_exec] on [cmd]: a new child with a fresh
    pid, or, when the program cannot be launched, the exception the
    launch raises ([FileNotFoundError] for a missing program,
    [PermissionError] for one that may not be run, ...). *)
Definition create_subprocess_exec (cmd : list string) : Py World nat :=
  fun w =>
    match launchable w with
    | Some p =>
        let pid := next_pid w in
        (Return pid, with_next_pid (S pid) (with_procs <[pid := p]> w))
    | None => (Raise (launch_error w), w)
    end.

Definition deliver (sig : Signal) (p : Proc) : Proc :=
  {| suspended := match sig with SIGSTOP => true | SIGCONT => false end;
     term_delay := term_delay p; kill_delay := kill_delay p |}.

(** [os.kill(pid, sig)] for the two job-control signals:
    [ProcessLookupError] when no such process exists. *)
Definition kill (pid : nat) (sig : Signal) : Py World unit :=
  fun w =>
    match procs w !! pid with
    | Some p => (Return tt, with_procs <[pid := deliver sig p]> w)
    | None => (Raise ProcessLookupError, w)
    end.

(** A request made through the handle of a child that has been reaped:
    the handle refuses it with [ProcessLookupError] once its transport
    has been closed, and until then it does nothing and returns. When
    the transport is closed is up to the event loop: some time after the
    child has exited and its pipes have reached their end. *)
Definition request_on_reaped (process : nat) : Py World unit :=
  fun w =>
    if bool_decide (process ∈ finalised w) then (Raise ProcessLookupError, w)
    else (Return tt, w).

(** The event loop closes the transport of the handle [process]. *)
Definition finalise (process : nat) (w : World) : World :=
  with_finalised (fun s => {[ process ]} ∪ s) w.

(** [process.terminate()]: the request is left pending with a child that
    exists. *)
Definition terminate (process : nat) : Py World unit :=
  fun w =>
    match procs w !! process with
    | Some _ => (Return tt, w)
    | None => request_on_reaped process w
    end.

(** The grace period of [stop_training]. *)
Definition timeout : nat := 10.

(** [await asyncio.wait_for(process.wait(), timeout=10)] after a
    termination request: the child exits in time when it is not suspended
    and handles the request in less than the timeout; otherwise the wait
    ends with [TimeoutError] when the timeout has elapsed. A child already
    reaped is waited for in no time. *)
Definition wait_for_exit (process : nat) : Py World unit :=
  fun w =>
    match procs w !! process with
    | None => (Return tt, w)
    | Some p =>
        match suspended p, term_delay p with
        | false, Some d =>
            if (d <? timeout)%nat
            then (Return tt, advance d (with_procs (delete process) w))
            else (Raise TimeoutError, advance timeout w)
        | _, _ => (Raise TimeoutError, advance timeout w)
        end
    end.

(** [process.kill()] followed by [await process.wait()]: the child is
    reaped after its [kill_delay]. *)
Definition kill_and_wait (process : nat) : Py World unit :=
  fun w =>
    match procs w !! process with
    | Some p =>
        (Return tt, advance (kill_delay p) (with_procs (delete process) w))
    | None => request_on_reaped process w
    end.

(** [asyncio.create_task(...)]: the task is recorded; it runs later. *)
Definition create_task (project_name : string) (process : nat) : Py World unit :=
  modify (with_tasks (fun l => l ++ [(project_name, process)])).

End OS.

(** ** [TrainingManager] (training_manager.py) *)

(** What [get_status] returns: the job's own dict, or the dict
    [{"status": "not_started"}]. *)
Inductive StatusReply : Type :=
  | job_record (j : Job)
  | not_started.

Module TrainingManager.

Local Open Scope py_scope.

(** [_generate_config]: the template reads [config["scene_name"]]
    ([KeyError] when absent) and the result is written to
    [neuralangelo_config.yaml] in the project folder; when the file
    cannot be written, [open] or the dump raises ([FileNotFoundError]
    for a missing folder, [PermissionError], ...). *)
Definition _generate_config (project_path : string) (config : Config)
  : Py World string :=
  match config !! "scene_name" with
  | None => raise KeyError
  | Some _ =>
      let config_file := path_join project_path "neuralangelo_config.yaml" in
      w <- get ;;
      if writable w then
        modify (with_files <[config_file := config]>) ;;;
        ret config_file
      else raise (write_error w)
  end.

(** [_prepare_training_command] *)
Definition _prepare_training_command (project_path config_file : string)
  (config : Config) : Py World (list string) :=
  let cmd := ["python"; "-m"; "torch.distributed.run"; "--nproc_per_node=1";
              "train.py"; "--config"; config_file;
              "--logdir"; path_join project_path "logs"; "--show_pbar"] in
  match config !! "gpu_ids" with
  | Some ids =>
      modify (with_environ <["CUDA_VISIBLE_DEVICES" := ids]>) ;;;
      ret cmd
  | None => ret cmd
  end.

(** The record [start_training] stores for a new job. *)
Definition new_job (process : nat) (config : Config) : Job :=
  {| process := process; status := running; iteration := 0;
     loss := FFinite 0; config := config |}.

(** [start_training] *)
Definition start_training (project_path : string) (config : Config)
  : Py World unit :=
  let project_name := default "default" (config !! "scene_name") in
  try_catch any_exception
    (config_file <- _generate_config project_path config ;;
     cmd <- _prepare_training_command project_path config_file config ;;
     process <- OS.create_subprocess_exec cmd ;;
     modify (with_trainings <[project_name := new_job process config]>) ;;;
     OS.create_task project_name process)
    (fun e =>
       ConnectionManager.broadcast (training_error None e) ;;;
       raise e).

(** [self.active_trainings[project_name]["status"] = s] *)
Definition set_status (project_name : string) (s : Status) : Py World unit :=
  modify (with_trainings (alter (fun j =>
    {| process := process j; status := s; iteration := iteration j;
       loss := loss j; config := config j |}) project_name)).

(** [pause_training] *)
Definition pause_training (project_name : string) : Py World unit :=
  w <- get ;;
  match active_trainings w !! project_name with
  | Some job =>
      OS.kill (process job) SIGSTOP ;;;
      set_status project_name paused
  | None => ret tt
  end.

(** [resume_training] *)
Definition resume_training (project_name : string) : Py World unit :=
  w <- get ;;
  match active_trainings w !! project_name with
  | Some job =>
      OS.kill (process job) SIGCONT ;;;
      set_status project_name running
  | None => ret tt
  end.

Definition is_timeout (e : Exn) : bool :=
  match e with TimeoutError => true | _ => false end.

(** [stop_training] *)
Definition stop_training (project_name : string) : Py World unit :=
  w <- get ;;
  match active_trainings w !! project_name with
  | Some job =>
      OS.terminate (process job) ;;;
      try_catch is_timeout
        (OS.wait_for_exit (process job))
        (fun _ => OS.kill_and_wait (process job)) ;;;
      set_status project_name stopped
  | None => ret tt
  end.

(** [get_status] *)
Definition get_status (project_name : string) : Py World StatusReply :=
  w <- get ;;
  match active_trainings w !! project_name with
  | Some job => ret (job_record job)
  | None => ret not_started
  end.

End TrainingManager.

(** ** The file system and the external commands [COLMAPProcessor] drives *)

(** What a path names: a directory with its entries in the order the
    operating system lists them, a text file with its lines in order, or
    something that exists but cannot be opened and read as text. *)
Inductive Node : Type :=
  | Dir (entries : list string)
  | File (lines : list string)
  | Unreadable.

Abbreviation FileSystem := (gmap string Node).

(** What [communicate] captured from one stream of a command: bytes that
    are the UTF-8 encoding of a text, or bytes that are not UTF-8. *)
Inductive Captured : Type :=
  | text (s : string)
  | not_utf8.

(** [captured.decode()] *)
Definition decode (c : Captured) : result string :=
  match c with
  | text s => Return s
  | not_utf8 => Raise UnicodeDecodeError
  end.

(** How one external command ends: it could not be launched, the launch
    raising [e]; or it ran, exited with [returncode] and left the file
    system [after]. *)
Inductive Outcome : Type :=
  | spawn_failed (e : Exn)
  | exited (returncode : Z) (stdout stderr : Captured) (after : FileSystem).

(** The state of a pipeline run: the file system, and the commands started
    so far with the exit status of each, oldest first. *)
Record Pipeline : Type := {
  fs : FileSystem;
  started : list (list string * Z)
}.

(** The dict [process] returns. *)
Record ProcessResult : Type := {
  res_status : string;
  res_output_path : string;
  res_statistics : gmap string Z
}.

Module FSys.

(** [path.exists()] *)
Definition exists_ (f : FileSystem) (path : string) : bool :=
  match f !! path with Some _ => true | None => false end.

(** [list(dir.glob("*"))]: the entries of [dir], in listing order, as
    paths; nothing when [dir] is not a directory. *)
Definition glob (f : FileSystem) (dir : string) : list string :=
  match f !! dir with
  | Some (Dir entries) => map (path_join dir) entries
  | _ => []
  end.

(** [open(path)] and reading it as lines of text. *)
Definition read_lines (f : FileSystem) (path : string) : result (list string) :=
  match f !! path with
  | Some (File lines) => Return lines
  | Some _ => Raise OSError
  | None => Raise FileNotFoundError
  end.

(** [(dir / name).mkdir(parents=True, exist_ok=True)]: nothing to do when
    the directory exists, [FileExistsError] when the path names something
    else; otherwise the directory is created and entered in [dir], which is
    created too when absent ([OSError] when [dir] is not a directory). *)
Definition mkdir (dir name : string) (f : FileSystem) : result FileSystem :=
  let path := path_join dir name in
  match f !! path with
  | Some (Dir _) => Return f
  | Some _ => Raise FileExistsError
  | None =>
      match f !! dir with
      | Some (Dir entries) =>
          Return (<[path := Dir []]> (<[dir := Dir (entries ++ [name])]> f))
      | Some _ => Raise OSError
      | None => Return (<[path := Dir []]> (<[dir := Dir [name]]> f))
      end
  end.

End FSys.

(** ** [COLMAPProcessor] (colmap_wrapper.py) *)

Module COLMAPProcessor.

Local Open Scope py_scope.

(** The reconstruction folder, as [_image_undistortion] and
    [_get_statistics] both find it: [sparse_path / "0"] when it exists,
    else element 0 of [list(sparse_path.glob("*"))], an [IndexError] on an
    empty list. *)
Definition reconstruction_folder (f : FileSystem) (sparse_path : string) : result string :=
  let reconstruction_path := path_join sparse_path "0" in
  if FSys.exists_ f reconstruction_path then Return reconstruction_path
  else match FSys.glob f sparse_path with
       | p :: _ => Return p
       | [] => Raise IndexError
       end.

(** [not line.startswith("#")] *)
Definition not_comment (line : string) : bool := negb (Str.startswith "#" line).

(** The count one statistics file contributes: 0 when the file does not
    exist, else [measure] of its lines that are not comments. *)
Definition count_lines (f : FileSystem) (file : string) (measure : list string -> Z)
  : result Z :=
  if FSys.exists_ f file then
    rbind (FSys.read_lines f file) (fun lines =>
    Return (measure (List.filter not_comment lines)))
  else Return 0.

Definition len (lines : list string) : Z := Z.of_nat (length lines).

(** The [try] block of [_get_statistics]. *)
Definition statistics_body (f : FileSystem) (sparse_path : string)
  : result (gmap string Z) :=
  rbind (reconstruction_folder f sparse_path) (fun reconstruction_path =>
  let cameras_file := path_join reconstruction_path "cameras.txt" in
  let images_file := path_join reconstruction_path "images.txt" in
  let points_file := path_join reconstruction_path "points3D.txt" in
  rbind (count_lines f cameras_file len) (fun num_cameras =>
  rbind (count_lines f images_file (fun ls => len ls / 2)) (fun num_images =>
  rbind (count_lines f points_file len) (fun num_points =>
  Return ({[ "num_cameras" := num_cameras;
             "num_images" := num_images;
             "num_points" := num_points ]} : gmap string Z))))).

(** [_get_statistics]: any exception is logged and [{}] returned. *)
Definition _get_statistics (f : FileSystem) (sparse_path : string)
  : result (gmap string Z) :=
  try_except (statistics_body f sparse_path) (fun _ => Return ∅).

(** The table of [_feature_matching]. *)
Definition quality_params : gmap string Z :=
  {[ "high" := 32768; "medium" := 16384; "low" := 8192 ]}.

(** [quality_params.get(quality, quality_params["high"])] *)
Definition max_num_matches (quality : string) : Z :=
  default 32768 (quality_params !! quality).

Section Commands.

(** What the external commands do, and the program name. *)
Variable exec : list string -> FileSystem -> Outcome.
Variable colmap_path : string.

(** [_run_command]: the command is started and waited for; a non-zero
    exit status is a [RuntimeError] carrying the decoded stderr, and
    otherwise the decoded stdout is returned. Either decoding can raise. *)
Definition _run_command (cmd : list string) : Py Pipeline string :=
  fun s =>
    match exec cmd (fs s) with
    | spawn_failed e => (Raise e, s)
    | exited returncode stdout stderr after =>
        let s' := {| fs := after;
                     started := started s ++ [(cmd, returncode)] |} in
        if returncode =? 0 then (decode stdout, s')
        else
          match decode stderr with
          | Return message =>
              (Raise (RuntimeError ("COLMAP command failed: " +:+ message)), s')
          | Raise e => (Raise e, s')
          end
    end.

Definition feature_extraction_cmd (images_path database_path camera_model : string)
  : list string :=
  [colmap_path; "feature_extractor";
   "--database_path"; database_path;
   "--image_path"; images_path;
   "--ImageReader.camera_model"; camera_model;
   "--SiftExtraction.use_gpu"; "1"].

Definition feature_matching_cmd (database_path quality : string) : list string :=
  [colmap_path; "exhaustive_matcher";
   "--database_path"; database_path;
   "--SiftMatching.use_gpu"; "1";
   "--SiftMatching.max_num_matches"; pretty (max_num_matches quality)].

Definition sparse_reconstruction_cmd (database_path images_path output_path : string)
  : list string :=
  [colmap_path; "mapper";
   "--database_path"; database_path;
   "--image_path"; images_path;
   "--output_path"; output_path].

Definition image_undistortion_cmd (images_path reconstruction_path dense_path : string)
  : list string :=
  [colmap_path; "image_undistorter";
   "--image_path"; images_path;
   "--input_path"; reconstruction_path;
   "--output_path"; dense_path;
   "--output_type"; "COLMAP"].

Definition _feature_extraction (images_path database_path camera_model : string)
  : Py Pipeline unit :=
  _run_command (feature_extraction_cmd images_path database_path camera_model) ;;;
  ret tt.

Definition _feature_matching (database_path quality : string) : Py Pipeline unit :=
  _run_command (feature_matching_cmd database_path quality) ;;;
  ret tt.

Definition _sparse_reconstruction (database_path images_path output_path : string)
  : Py Pipeline unit :=
  _run_command (sparse_reconstruction_cmd database_path images_path output_path) ;;;
  ret tt.

(** A computation that only reads the file system. *)
Definition read_fs {A : Type} (r : FileSystem -> result A) : Py Pipeline A :=
  fun s => (r (fs s), s).

Definition _image_undistortion (images_path sparse_path dense_path : string)
  : Py Pipeline unit :=
  reconstruction_path <- read_fs (fun f => reconstruction_folder f sparse_path) ;;
  _run_command (image_undistortion_cmd images_path reconstruction_path dense_path) ;;;
  ret tt.

Definition mkdir (dir name : string) : Py Pipeline unit :=
  fun s =>
    match FSys.mkdir dir name (fs s) with
    | Return f => (Return tt, {| fs := f; started := started s |})
    | Raise e => (Raise e, s)
    end.

(** The four stages of [process], in the order the code awaits them. *)
Definition stages (images_path output_path camera_model quality : string)
  : Py Pipeline unit :=
  let database_path := path_join output_path "database.db" in
  let sparse_path := path_join output_path "sparse" in
  let dense_path := path_join output_path "dense" in
  _feature_extraction images_path database_path camera_model ;;;
  _feature_matching database_path quality ;;;
  _sparse_reconstruction database_path images_path sparse_path ;;;
  _image_undistortion images_path sparse_path dense_path.

(** [process]: the two paths are made [Path]s, the two folders are made,
    the stages run, the statistics are read; any exception is logged and
    raised again. *)
Definition process (images_path output_path camera_model quality : string)
  : Py Pipeline ProcessResult :=
  try_catch any_exception
    (let images_path := normalise images_path in
     let output_path := normalise output_path in
     let sparse_path := path_join output_path "sparse" in
     mkdir output_path "sparse" ;;;
     mkdir output_path "dense" ;;;
     stages images_path output_path camera_model quality ;;;
     stats <- read_fs (fun f => _get_statistics f sparse_path) ;;
     ret {| res_status := "success";
            res_output_path := output_path;
            res_statistics := stats |})
    (fun e => raise e).

End Commands.

(** The names of the four commands, in the declared order of the stages. *)
Definition stage_names : list string :=
  ["feature_extractor"; "exhaustive_matcher"; "mapper"; "image_undistorter"].

(** The name of the command a run started: the word after the program. *)
Definition stage_of (run : list string * Z) : string :=
  nth 1 (fst run) "".

End COLMAPProcessor.

(** ** What one [broadcast] does to the websockets *)

(** The effect of [try: send_json except: pass] on the websocket objects:
    an open websocket receives the message, anything else is left alone. *)
Definition deliver_to (message : Message) (s : gmap nat WebSocket)
  (connection : nat) : gmap nat WebSocket :=
  match s !! connection with
  | Some ws =>
      if ws_closed ws then s
      else <[connection := {| ws_closed := false;
                              ws_sent := ws_sent ws ++ [message] |}]> s
  | None => s
  end.

(** A websocket after the messages [ms] were sent to it: a closed one is
    as before, an open one holds them after what it held. *)
Definition received (ms : list Message) (ws : WebSocket) : WebSocket :=
  if ws_closed ws then ws
  else {| ws_closed := false; ws_sent := ws_sent ws ++ ms |}.

(** ** Measures used in the statements *)

(** The time [stop_training] takes on a live child: the child's own delay
    when it exits within the grace period, else the grace period and the
    time of the kill. *)
Definition stop_time (pr : Proc) : nat :=
  match suspended pr, term_delay pr with
  | false, Some d =>
      if (d <? OS.timeout)%nat then d else (OS.timeout + kill_delay pr)%nat
  | _, _ => (OS.timeout + kill_delay pr)%nat
  end.

(** The lines of [file] that are not comments: none when the file is
    absent. *)
Definition data_lines (f : FileSystem) (file : string) : list string :=
  match f !! file with
  | Some (File lines) => List.filter COLMAPProcessor.not_comment lines
  | _ => []
  end.

(** [file] is absent or is a text file that can be read. *)
Definition absent_or_text (f : FileSystem) (file : string) : Prop :=
  match f !! file with
  | Some (File _) | None => True
  | Some _ => False
  end.

(** ** Sample states *)

Module Sample.

Definition cfg : Config := {[ "scene_name" := "demo" ]}.

(** A child that exits 3 time units after a termination request. *)
Definition child : Proc :=
  {| suspended := false; term_delay := Some 3%nat; kill_delay := 1%nat |}.

(** A child that ignores termination requests. *)
Definition stubborn : Proc :=
  {| suspended := false; term_delay := None; kill_delay := 2%nat |}.

(** No job, no subscriber. *)
Definition idle : World :=
  {| active_trainings := ∅; active_connections := []; sockets := ∅;
     procs := ∅; next_pid := 7; launchable := Some child; writable := true;
     files := ∅; environ := ∅; tasks := []; clock := 0; finalised := ∅;
     write_error := OSError; launch_error := FileNotFoundError |}.

Definition job (s : Status) : Job :=
  {| process := 7; status := s; iteration := 500; loss := FFinite (1 # 2);
     config := cfg |}.

(** Project "demo" has a job in status [s] whose child [p], pid 7, has not
    been reaped. The status error with a live child is what the [except]
    branch of the monitoring task leaves when reading or decoding a line
    of output fails while the child still runs. *)
Definition with_job (s : Status) (p : Proc) : World :=
  {| active_trainings := {[ "demo" := job s ]}; active_connections := [];
     sockets := ∅; procs := {[ 7%nat := p ]}; next_pid := 8;
     launchable := Some child; writable := true; files := ∅; environ := ∅;
     tasks := [("demo", 7%nat)]; clock := 0; finalised := ∅;
     write_error := OSError; launch_error := FileNotFoundError |}.

(** Two subscribers: websocket 1 has been closed, websocket 2 is open. *)
Definition two_subscribers : World :=
  {| active_trainings := ∅; active_connections := [1; 2]%nat;
     sockets := {[ 1%nat := {| ws_closed := true; ws_sent := [] |};
                   2%nat := {| ws_closed := false; ws_sent := [] |} ]};
     procs := ∅; next_pid := 7; launchable := Some child; writable := true;
     files := ∅; environ := ∅; tasks := []; clock := 0; finalised := ∅;
     write_error := OSError; launch_error := FileNotFoundError |}.

End Sample.

(** ** Sample pipelines *)

Module SamplePipeline.

(** The commands all exit with status 0 and leave the files alone, except
    the one named [failing], which exits with status 1. *)
Definition exec_failing (failing : string) (cmd : list string)
  (f : FileSystem) : Outcome :=
  if String.eqb (nth 1 cmd "") failing then exited 1 (text "") (text "fatal") f
  else exited 0 (text "done") (text "") f.

(** A workspace whose reconstruction folder "0" holds two cameras and five
    points, and no images file. *)
Definition reconstructed : FileSystem :=
  {[ "out" := Dir ["sparse"; "dense"];
     "out/dense" := Dir [];
     "out/sparse" := Dir ["0"];
     "out/sparse/0" := Dir ["cameras.txt"; "points3D.txt"];
     "out/sparse/0/cameras.txt" :=
       File ["# Camera list with one line of data per camera:";
             "1 PINHOLE 640 480 500 500 320 240";
             "2 PINHOLE 640 480 510 510 320 240"];
     "out/sparse/0/points3D.txt" :=
       File ["# 3D point list with one line of data per point:";
             "1 0.1 0.2 0.3 255 255 255 0.5";
             "2 0.4 0.5 0.6 255 255 255 0.5";
             "3 0.7 0.8 0.9 255 255 255 0.5";
             "4 1.0 1.1 1.2 255 255 255 0.5";
             "5 1.3 1.4 1.5 255 255 255 0.5"] ]}.

(** A workspace with no folder "0": the mapper's folders are listed as
    "b", then "a". *)
Definition unsorted : FileSystem :=
  {[ "out" := Dir ["sparse"; "dense"];
     "out/dense" := Dir [];
     "out/sparse" := Dir ["b"; "a"];
     "out/sparse/a" := Dir [];
     "out/sparse/b" := Dir [] ]}.

(** A workspace whose sparse folder is empty. *)
Definition empty_sparse : FileSystem :=
  {[ "out" := Dir ["sparse"; "dense"];
     "out/dense" := Dir [];
     "out/sparse" := Dir [] ]}.

End SamplePipeline.

(** ** [TrainingManager._monitor_training] *)

Module Monitor.

Local Open Scope py_scope.

(** A computation that raises or returns without touching the state. *)
Definition lift {S A : Type} (r : result A) : Py S A := fun s => (r, s).

(** [await process.wait()] at the end of the output: the child has exited
    and is reaped. How long that takes is not modelled. *)
Definition wait (process : nat) : Py World unit :=
  modify (with_procs (delete process)).

(** [self.active_trainings[project_name].update(progress)]: a [KeyError]
    when the project has no record. *)
Definition update (project_name : string) (progress : Progress)
  : Py World unit :=
  w <- get ;;
  match active_trainings w !! project_name with
  | Some job =>
      modify (with_trainings
        <[project_name := {| process := process job; status := status job;
                             iteration := prog_iteration progress;
                             loss := prog_loss progress;
                             config := config job |}]>)
  | None => raise KeyError
  end.

(** [self.active_trainings[project_name]["status"] = s] with no test
    before it: a [KeyError] when the project has no record. *)
Definition assign_status (project_name : string) (s : Status)
  : Py World unit :=
  w <- get ;;
  match active_trainings w !! project_name with
  | Some _ => TrainingManager.set_status project_name s
  | None => raise KeyError
  end.

(** The body of the loop for one line read from the child, [raw] being
    the decoded text of the line. *)
Definition monitor_line (project_name raw : string) : Py World unit :=
  let line := Str.strip raw in
  progress <- lift (Parser._parse_training_output line) ;;
  match progress with
  | Some p =>
      update project_name p ;;;
      ConnectionManager.broadcast (training_progress project_name p)
  | None => ret tt
  end ;;;
  ConnectionManager.broadcast (training_log project_name line).

(** The [while True] loop over what the child prints. Each element of
    [output] is what one [readline] followed by [decode] gives: the text
    of a line, or the exception that reading or decoding it raises. The
    loop ends at the end of the output, which [readline] reports as an
    empty line. *)
Fixpoint monitor_loop (project_name : string) (output : list (result string))
  : Py World unit :=
  match output with
  | [] => ret tt
  | Raise e :: _ => raise e
  | Return raw :: rest =>
      if String.eqb raw "" then ret tt
      else monitor_line project_name raw ;;; monitor_loop project_name rest
  end.

(** [_monitor_training] *)
Definition _monitor_training (project_name : string) (process : nat)
  (output : list (result string)) : Py World unit :=
  try_catch any_exception
    (monitor_loop project_name output ;;;
     wait process ;;;
     assign_status project_name completed ;;;
     ConnectionManager.broadcast (training_complete project_name))
    (fun e =>
       assign_status project_name error ;;;
       ConnectionManager.broadcast (training_error (Some project_name) e)).

End Monitor.

(** ** What a run of the monitoring task amounts to *)

(** The messages one line gives rise to. *)
Definition line_messages (project_name raw : string) : list Message :=
  let line := Str.strip raw in
  match Parser._parse_training_output line with
  | Return (Some p) =>
      [training_progress project_name p; training_log project_name line]
  | _ => [training_log project_name line]
  end.

(** The messages of a whole run, oldest first. *)
Fixpoint run_messages (project_name : string) (output : list (result string))
  : list Message :=
  match output with
  | [] => [training_complete project_name]
  | Raise e :: _ => [training_error (Some project_name) e]
  | Return raw :: rest =>
      if String.eqb raw "" then [training_complete project_name]
      else line_messages project_name raw ++ run_messages project_name rest
  end.

(** The status a run ends with. *)
Fixpoint run_status (output : list (result string)) : Status :=
  match output with
  | [] => completed
  | Raise _ :: _ => error
  | Return raw :: rest =>
      if String.eqb raw "" then completed else run_status rest
  end.

(** The last progress read in a run, [last] when there is none. *)
Fixpoint run_progress (output : list (result string)) (last : Progress)
  : Progress :=
  match output with
  | [] => last
  | Raise _ :: _ => last
  | Return raw :: rest =>
      if String.eqb raw "" then last
      else match Parser._parse_training_output (Str.strip raw) with
           | Return (Some p) => run_progress rest p
           | _ => run_progress rest last
           end
  end.

(** The websockets after the messages [ms] were published, one after the
    other, to the subscribers [conns]. *)
Definition publish (ms : list Message) (conns : list nat)
  (s : gmap nat WebSocket) : gmap nat WebSocket :=
  foldl (fun s m => foldl (deliver_to m) s conns) s ms.

(** [w'] is [w] after the messages [ms] were published and nothing else
    happened to the subscribers. *)
Definition delivered (ms : list Message) (w w' : World) : Prop :=
  active_connections w' = active_connections w
  /\ sockets w' = publish ms (active_connections w) (sockets w).

(** The record of a job with its iteration and loss replaced. *)
Definition set_progress (j : Job) (p : Progress) : Job :=
  {| process := process j; status := status j;
     iteration := prog_iteration p; loss := prog_loss p;
     config := config j |}.

(** The record of a job with its status replaced. *)
Definition with_status (j : Job) (s : Status) : Job :=
  {| process := process j; status := s; iteration := iteration j;
     loss := loss j; config := config j |}.

(** The iteration and loss a job's record holds. *)
Definition current (j : Job) : Progress :=
  {| prog_iteration := iteration j; prog_loss := loss j |}.

(** How the loop of a run ends: normally, or with the first exception
    that reading a line raises. *)
Fixpoint loop_result (output : list (result string)) : result unit :=
  match output with
  | [] => Return tt
  | Raise e :: _ => Raise e
  | Return raw :: rest =>
      if String.eqb raw "" then Return tt else loop_result rest
  end.

(** The messages of the loop of a run, oldest first. *)
Fixpoint loop_messages (project_name : string) (output : list (result string))
  : list Message :=
  match output with
  | [] => []
  | Raise _ :: _ => []
  | Return raw :: rest =>
      if String.eqb raw "" then []
      else line_messages project_name raw ++ loop_messages project_name rest
  end.

(** The text of a log message, [None] for any other message. *)
Definition log_text (m : Message) : option string :=
  match m with
  | training_log _ message => Some message
  | _ => None
  end.

(** ** Sample runs *)

Module SampleRun.

Definition nl : string := String (ascii_of_nat 10) "".

(** Project "demo" is running, and there are two subscribers: websocket 1
    has been closed, websocket 2 is open. *)
Definition monitored : World :=
  {| active_trainings := {[ "demo" := Sample.job running ]};
     active_connections := [1; 2]%nat;
     sockets := {[ 1%nat := {| ws_closed := true; ws_sent := [] |};
                   2%nat := {| ws_closed := false; ws_sent := [] |} ]};
     procs := {[ 7%nat := Sample.child ]}; next_pid := 8;
     launchable := Some Sample.child; writable := true; files := ∅;
     environ := ∅; tasks := [("demo", 7%nat)]; clock := 0; finalised := ∅;
     write_error := OSError; launch_error := FileNotFoundError |}.

(** A banner, then a progress line. *)
Definition lines : list string :=
  ["loading dataset" +:+ nl; "iter: 10, loss: 0.5" +:+ nl].

(** The same, with a line that cannot be decoded after them. *)
Definition broken : list (result string) :=
  map Return lines ++ [Raise ValueError].

End SampleRun.

(** ** Sample states for failures *)

Module SampleFailure.

(** Two subscribers as in [SampleRun.monitored], no job, and a training
    program that cannot be launched. *)
Definition unlaunchable : World :=
  {| active_trainings := ∅; active_connections := [1; 2]%nat;
     sockets := {[ 1%nat := {| ws_closed := true; ws_sent := [] |};
                   2%nat := {| ws_closed := false; ws_sent := [] |} ]};
     procs := ∅; next_pid := 7; launchable := None; writable := true;
     files := ∅; environ := ∅; tasks := []; clock := 0; finalised := ∅;
     write_error := OSError; launch_error := FileNotFoundError |}.

End SampleFailure.

(** ** [COLMAPProcessor.dense_reconstruction] *)

Module Dense.

Local Open Scope py_scope.

Definition stereo_cmd (colmap_path dense_path : string) : list string :=
  [colmap_path; "patch_match_stereo";
   "--workspace_path"; dense_path;
   "--PatchMatchStereo.gpu_index"; "0"].

Definition fusion_cmd (colmap_path dense_path : string) : list string :=
  [colmap_path; "stereo_fusion";
   "--workspace_path"; dense_path;
   "--output_path"; path_join dense_path "fused.ply"].

(** [dense_reconstruction]: stereo matching, then fusion. *)
Definition dense_reconstruction (exec : list string -> FileSystem -> Outcome)
  (colmap_path dense_path : string) : Py Pipeline unit :=
  COLMAPProcessor._run_command exec (stereo_cmd colmap_path dense_path) ;;;
  COLMAPProcessor._run_command exec (fusion_cmd colmap_path dense_path) ;;;
  ret tt.

End Dense.

(** ** Sample workspaces with damaged statistics *)

Module SampleDamaged.

(** As [SamplePipeline.reconstructed], but the points file cannot be
    read. *)
Definition unreadable_points : FileSystem :=
  <["out/sparse/0/points3D.txt" := Unreadable]> SamplePipeline.reconstructed.

End SampleDamaged.

(** ** Checkpoints ([TrainingManager.list_checkpoints],
    [MeshExtractor._get_checkpoint_path]) *)

Module Checkpoints.

(** [s <= t] for two [str]: the order of [sorted] on names. *)
Definition string_le (s t : string) : Prop := String.leb s t = true.

Definition string_le_dec (s t : string) : Decision (string_le s t) :=
  decide (String.leb s t = true).

(** [sorted(names)] *)
Definition sorted (names : list string) : list string :=
  @merge_sort string string_le string_le_dec names.

(** [name] matches the pattern "*.pth": it ends with ".pth", letter case
    counting, as on a POSIX file system. *)
Definition is_pth (name : string) : bool :=
  let n := String.length name in
  (4 <=? n)%nat && String.eqb (String.substring (n - 4) 4 name) ".pth".

(** The names of the entries of [dir], in listing order; none when [dir]
    is not a directory. *)
Definition entries (f : FileSystem) (dir : string) : list string :=
  match f !! dir with
  | Some (Dir names) => names
  | _ => []
  end.

(** The names [dir.glob("*.pth")] yields. *)
Definition glob_pth (f : FileSystem) (dir : string) : list string :=
  List.filter is_pth (entries f dir).

(** [list_checkpoints] *)
Definition list_checkpoints (f : FileSystem) (project_path : string)
  : list string :=
  let checkpoint_path := path_join project_path "checkpoints" in
  if FSys.exists_ f checkpoint_path then sorted (glob_pth f checkpoint_path)
  else [].

(** [_get_checkpoint_path]; [None] is Python's [None]. The paths of one
    folder compare as their names do. *)
Definition _get_checkpoint_path (f : FileSystem) (project_path checkpoint : string)
  : option string :=
  let checkpoint_dir := path_join project_path "checkpoints" in
  if String.eqb checkpoint "latest" then
    match last (sorted (glob_pth f checkpoint_dir)) with
    | Some name => Some (path_join checkpoint_dir name)
    | None => None
    end
  else
    let checkpoint_file := path_join checkpoint_dir (checkpoint +:+ ".pth") in
    if FSys.exists_ f checkpoint_file then Some checkpoint_file else None.

End Checkpoints.

(** A project with three checkpoints, listed out of order. *)
Definition sample_checkpoints : FileSystem :=
  {[ "project/checkpoints" :=
       Dir ["epoch_9000.pth"; "notes.txt"; "epoch_10000.pth";
            "epoch_2000.pth"];
     "project/checkpoints/epoch_9000.pth" := Unreadable;
     "project/checkpoints/notes.txt" := File ["trained on the full set"];
     "project/checkpoints/epoch_10000.pth" := Unreadable;
     "project/checkpoints/epoch_2000.pth" := Unreadable ]}.

(** ** The control endpoints (server.py) *)

Module Server.

(** What an endpoint answers: the dict [{"status": status}], or the
    [HTTPException] with its status code and, as detail, the exception
    whose text it carries. *)
Inductive Response : Type :=
  | ok (status : string)
  | http_error (status_code : Z) (detail : Exn).

(** [try: await operation; return {"status": status}
     except Exception as e: raise HTTPException(status_code=500, ...)] *)
Definition respond (operation : Py World unit) (status : string)
  : World -> Response * World :=
  fun w =>
    match operation w with
    | (Return _, w') => (ok status, w')
    | (Raise e, w') => (http_error 500 e, w')
    end.

Definition pause_training (project_name : string) : World -> Response * World :=
  respond (TrainingManager.pause_training project_name) "paused".

Definition resume_training (project_name : string) : World -> Response * World :=
  respond (TrainingManager.resume_training project_name) "resumed".

Definition stop_training (project_name : string) : World -> Response * World :=
  respond (TrainingManager.stop_training project_name) "stopped".

End Server.

(** The project has no record, or has one whose child still exists. *)
Definition controllable (project_name : string) (w : World) : bool :=
  match active_trainings w !! project_name with
  | None => true
  | Some job =>
      match procs w !! process job with Some _ => true | None => false end
  end.

(** The project has no record, or has one whose child still exists, or
    has one whose child has been reaped while the handle of that child
    has not been closed yet. *)
Definition stoppable (project_name : string) (w : World) : bool :=
  match active_trainings w !! project_name with
  | None => true
  | Some job =>
      match procs w !! process job with
      | Some _ => true
      | None => negb (bool_decide (process job ∈ finalised w))
      end
  end.

(** ** Sample configurations *)

Module SampleConfig.

(** A configuration that selects GPU 1. *)
Definition with_gpu : Config :=
  {[ "scene_name" := "demo"; "gpu_ids" := "1" ]}.

(** A configuration for another project that selects no GPU. *)
Definition without_gpu : Config := {[ "scene_name" := "other" ]}.

End SampleConfig.

(** * Properties *)

(** ** The progress parser *)

Section ParserFacts.

Import Parser.

Lemma parse_part_malformed (acc : Fields) (part : string) :
  malformed_part part = true -> exists e, parse_part acc part = Raise e.
Proof.
  unfold malformed_part, parse_part.
  destruct (Str.contains "iter" (Str.strip part)).
  - destruct (field (Str.strip part)) as [f|e]; simpl; [|eauto].
    destruct (Str.py_int f); simpl; [discriminate | eauto].
  - destruct (Str.contains "loss" (Str.strip part)); [|discriminate].
    destruct (field (Str.strip part)) as [f|e]; simpl; [|eauto].
    destruct (Float.py_float f); simpl; [discriminate | eauto].
Qed.

(** The loop stops with an exception as soon as one part is malformed. *)
Lemma for_each_malformed (parts : list string) :
  forall acc : Fields,
  existsb malformed_part parts = true ->
  exists e, for_each parse_part parts acc = Raise e.
Proof.
  induction parts as [|part parts IH]; intros acc H; simpl in H.
  - discriminate.
  - simpl. destruct (malformed_part part) eqn:Hm.
    + destruct (parse_part_malformed acc part Hm) as [e ->]. simpl. eauto.
    + simpl in H. destruct (parse_part acc part) as [acc'|e]; simpl; eauto.
Qed.

Lemma parse_never_raises (line : string) :
  exists r, _parse_training_output line = Return r.
Proof.
  unfold _parse_training_output, try_except.
  destruct (parse_body line); eauto.
Qed.

Lemma parse_body_caught (line : string) (e : Exn) :
  parse_body line = Raise e -> _parse_training_output line = Return None.
Proof. unfold _parse_training_output. intros ->. reflexivity. Qed.

End ParserFacts.

(** C6. On the line "iter: 1000, loss: 0.0234" the parser returns the
    progress record with iteration 1000 and loss 0.0234; on the line
    "starting worker pool" it returns no record. *)
Theorem parse_progress_line :
  Parser._parse_training_output "iter: 1000, loss: 0.0234"
    = Return (Some {| prog_iteration := 1000;
                      prog_loss := FFinite (Qred (234 # 10000)) |})
  /\ Parser._parse_training_output "starting worker pool" = Return None.
Proof. split; vm_compute; reflexivity. Qed.

(** C7. The parser is total and never raises: on every line it returns a
    progress record or none, and a line with a part whose numeric field is
    missing or malformed yields none. *)
Theorem parse_total (line : string) :
  (exists r, Parser._parse_training_output line = Return r)
  /\ (existsb Parser.malformed_part (Str.split "," line) = true ->
      Parser._parse_training_output line = Return None).
Proof.
  split; [apply parse_never_raises|].
  intros H. unfold Parser._parse_training_output, Parser.parse_body.
  destruct (Str.contains "iter" line && Str.contains "loss" line);
    [|reflexivity].
  destruct (for_each_malformed _ (None, None) H) as [e ->]. reflexivity.
Qed.

Lemma parse_total_witness :
  existsb Parser.malformed_part (Str.split "," "iter: 12a, loss: 0.5") = true
  /\ Parser._parse_training_output "iter: 12a, loss: 0.5" = Return None.
Proof.
  split; [reflexivity|].
  apply (proj2 (parse_total "iter: 12a, loss: 0.5")). reflexivity.
Defined.

(** ** The broadcaster *)

Section BroadcastFacts.

Import ConnectionManager.

(** One guarded send never raises and touches only the websockets. *)
Lemma guarded_send (c : nat) (m : Message) (w : World) :
  try_catch any_exception (send_json c m) (fun _ => ret tt) w
  = (Return tt, with_sockets (fun s => deliver_to m s c) w).
Proof.
  unfold try_catch, send_json, deliver_to, with_sockets. destruct w as [? ? s ? ? ? ? ? ? ? ?]; simpl.
  destruct (s !! c) as [ws|]; [destruct (ws_closed ws)|]; reflexivity.
Qed.

Lemma for_in_guarded_send (m : Message) (conns : list nat) :
  forall w : World,
  for_in conns (fun c => try_catch any_exception (send_json c m) (fun _ => ret tt)) w
  = (Return tt, with_sockets (fun s => foldl (deliver_to m) s conns) w).
Proof.
  induction conns as [|c conns IH]; intros w; simpl.
  - destruct w; reflexivity.
  - unfold bind. rewrite guarded_send, IH. destruct w; reflexivity.
Qed.

(** [broadcast] as a function of the state. *)
Lemma broadcast_eq (m : Message) (w : World) :
  broadcast m w
  = (Return tt,
     with_sockets (fun s => foldl (deliver_to m) s (active_connections w)) w).
Proof. unfold broadcast, bind, get. apply for_in_guarded_send. Qed.

Lemma deliver_to_other (m : Message) (s : gmap nat WebSocket) (c c' : nat) :
  c <> c' -> deliver_to m s c !! c' = s !! c'.
Proof.
  intros Hne. unfold deliver_to.
  destruct (s !! c) as [ws|]; [|reflexivity].
  destruct (ws_closed ws); [reflexivity|]. by rewrite lookup_insert_ne.
Qed.

Lemma foldl_deliver_to_absent (m : Message) (conns : list nat) :
  forall (s : gmap nat WebSocket) (c : nat),
  c ∉ conns -> foldl (deliver_to m) s conns !! c = s !! c.
Proof.
  induction conns as [|c0 conns IH]; intros s c Hc; simpl; [reflexivity|].
  apply not_elem_of_cons in Hc as [Hne Hc].
  rewrite IH by assumption. apply deliver_to_other. congruence.
Qed.

Lemma deliver_to_self (m : Message) (s : gmap nat WebSocket) (c : nat) (ws : WebSocket) :
  s !! c = Some ws -> deliver_to m s c !! c = Some (received [m] ws).
Proof.
  intros H. unfold deliver_to, received. rewrite H.
  destruct (ws_closed ws) eqn:E; [assumption|]. by rewrite lookup_insert_eq.
Qed.

Lemma foldl_deliver_to_present (m : Message) (conns : list nat) :
  forall (s : gmap nat WebSocket) (c : nat) (ws : WebSocket),
  NoDup conns -> c ∈ conns -> s !! c = Some ws ->
  foldl (deliver_to m) s conns !! c = Some (received [m] ws).
Proof.
  induction conns as [|c0 conns IH]; intros s c ws Hnd Hc Hs; simpl.
  - by apply elem_of_nil in Hc.
  - apply NoDup_cons in Hnd as [Hnotin Hnd].
    apply elem_of_cons in Hc as [->|Hc].
    + rewrite foldl_deliver_to_absent by assumption.
      by apply deliver_to_self.
    + apply IH; [assumption..|].
      rewrite deliver_to_other; [assumption|]. intros ->. contradiction.
Qed.

Lemma received_app (ms1 ms2 : list Message) (ws : WebSocket) :
  received ms2 (received ms1 ws) = received (ms1 ++ ms2) ws.
Proof.
  unfold received. destruct (ws_closed ws) eqn:E; simpl; [by rewrite E|].
  by rewrite <- app_assoc.
Qed.

Lemma received_nil (ws : WebSocket) : received [] ws = ws.
Proof.
  unfold received. destruct ws as [[] l]; simpl; [reflexivity|].
  by rewrite app_nil_r.
Qed.

(** Publishing a sequence of events: no exception, the same subscriber
    list, and every registered websocket has received what it could. *)
Lemma broadcast_all_spec (ms : list Message) :
  forall w : World,
  NoDup (active_connections w) ->
  fst (broadcast_all ms w) = Return tt
  /\ active_connections (snd (broadcast_all ms w)) = active_connections w
  /\ active_trainings (snd (broadcast_all ms w)) = active_trainings w
  /\ forall c ws, c ∈ active_connections w -> sockets w !! c = Some ws ->
       sockets (snd (broadcast_all ms w)) !! c = Some (received ms ws).
Proof.
  induction ms as [|m ms IH]; intros w Hnd; simpl.
  - repeat split; try reflexivity. intros c ws _ H. by rewrite received_nil.
  - unfold bind. rewrite broadcast_eq.
    set (w1 := with_sockets _ w).
    assert (Hc1 : active_connections w1 = active_connections w) by reflexivity.
    destruct (IH w1) as (Hr & Hc & Ht & Hs); [by rewrite Hc1|].
    repeat split; [assumption | by rewrite Hc | by rewrite Ht |].
    intros c ws Hin Hw.
    change (m :: ms) with ([m] ++ ms). rewrite <- (received_app [m] ms ws).
    apply Hs; [by rewrite Hc1|].
    subst w1. simpl. by apply foldl_deliver_to_present.
Qed.

End BroadcastFacts.

(** C4 (as amended). Publishing never raises and never changes the
    subscriber list: a subscriber whose delivery fails stays registered.
    Every registered open websocket receives each published event, in
    publication order, whatever happens to the other subscribers. *)
Theorem broadcast_best_effort :
  (forall (m : Message) (w : World),
     fst (ConnectionManager.broadcast m w) = Return tt
     /\ active_connections (snd (ConnectionManager.broadcast m w))
        = active_connections w)
  /\ (forall (ms : list Message) (w : World),
        NoDup (active_connections w) ->
        fst (ConnectionManager.broadcast_all ms w) = Return tt
        /\ active_connections (snd (ConnectionManager.broadcast_all ms w))
           = active_connections w
        /\ forall c ws, c ∈ active_connections w -> sockets w !! c = Some ws ->
             sockets (snd (ConnectionManager.broadcast_all ms w)) !! c
             = Some (received ms ws)).
Proof.
  split.
  - intros m w. rewrite broadcast_eq. split; reflexivity.
  - intros ms w Hnd. destruct (broadcast_all_spec ms w Hnd) as (H1 & H2 & _ & H4).
    auto.
Qed.

Lemma broadcast_best_effort_witness :
  sockets (snd (ConnectionManager.broadcast_all
                  [training_log "demo" "epoch 1"; training_complete "demo"]
                  Sample.two_subscribers)) !! 2%nat
  = Some {| ws_closed := false;
            ws_sent := [training_log "demo" "epoch 1"; training_complete "demo"] |}.
Proof.
  apply (proj2 (proj2 (proj2 broadcast_best_effort
           [training_log "demo" "epoch 1"; training_complete "demo"]
           Sample.two_subscribers
           ltac:(apply (bool_decide_unpack _); vm_compute; exact I)))
         2%nat {| ws_closed := false; ws_sent := [] |}).
  - apply (bool_decide_unpack _). vm_compute. exact I.
  - vm_compute. reflexivity.
Defined.

(** C4, the claim as stated fails: websocket 1 is closed, so the send to
    it raises, yet after the broadcast it is still in the subscriber
    list. *)
Lemma broadcast_keeps_failed_subscriber :
  fst (ConnectionManager.send_json 1 (training_complete "demo")
         Sample.two_subscribers) = Raise SendError
  /\ active_connections
       (snd (ConnectionManager.broadcast (training_complete "demo")
               Sample.two_subscribers)) = [1; 2]%nat.
Proof. split; vm_compute; reflexivity. Qed.

(** ** The training manager *)

(** Unfolds the monadic plumbing of the training manager's methods. *)
Ltac py_unfold :=
  cbv beta iota zeta delta
    [TrainingManager.start_training TrainingManager.pause_training
     TrainingManager.resume_training TrainingManager.stop_training
     TrainingManager.get_status TrainingManager.set_status
     TrainingManager._generate_config
     TrainingManager._prepare_training_command
     OS.create_subprocess_exec OS.create_task OS.kill OS.terminate
     OS.wait_for_exit OS.kill_and_wait
     bind get ret raise modify try_catch any_exception].

Section TrainingFacts.

Import TrainingManager.

Lemma start_training_success (project_path : string) (cfg : Config)
  (w : World) (name : string) (child : Proc) :
  cfg !! "scene_name" = Some name ->
  writable w = true ->
  launchable w = Some child ->
  exists w',
    start_training project_path cfg w = (Return tt, w')
    /\ active_trainings w'
       = <[name := new_job (next_pid w) cfg]> (active_trainings w)
    /\ procs w' = <[next_pid w := child]> (procs w)
    /\ active_connections w' = active_connections w
    /\ sockets w' = sockets w.
Proof.
  intros Hname Hw Hl.
  py_unfold.
  rewrite Hname; simpl. rewrite Hw.
  destruct (cfg !! "gpu_ids"); simpl; rewrite Hl; simpl;
    eexists; (split; [reflexivity|]); repeat split.
Qed.

Lemma start_training_failure (project_path : string) (cfg : Config)
  (w w' : World) (e : Exn) :
  start_training project_path cfg w = (Raise e, w') ->
  active_trainings w' = active_trainings w.
Proof.
  py_unfold.
  destruct (cfg !! "scene_name"); simpl.
  - destruct (writable w); simpl.
    + destruct (cfg !! "gpu_ids"); simpl;
        (destruct (launchable w); simpl; [discriminate|]);
        rewrite broadcast_eq; intros [= _ <-]; reflexivity.
    + rewrite broadcast_eq. intros [= _ <-]. reflexivity.
  - rewrite broadcast_eq. intros [= _ <-]. reflexivity.
Qed.

Lemma pause_training_no_record (p : string) (w : World) :
  active_trainings w !! p = None -> pause_training p w = (Return tt, w).
Proof.
  intros H. py_unfold. rewrite H. reflexivity.
Qed.

Lemma pause_training_live (p : string) (w : World) (j : Job) (pr : Proc) :
  active_trainings w !! p = Some j ->
  procs w !! process j = Some pr ->
  pause_training p w
  = (Return tt,
     with_trainings (alter (fun j =>
         {| process := process j; status := paused; iteration := iteration j;
            loss := loss j; config := config j |}) p)
       (with_procs <[process j := OS.deliver SIGSTOP pr]> w)).
Proof.
  intros Hj Hp. py_unfold.
  rewrite Hj, Hp. reflexivity.
Qed.

Lemma pause_training_gone (p : string) (w : World) (j : Job) :
  active_trainings w !! p = Some j ->
  procs w !! process j = None ->
  pause_training p w = (Raise ProcessLookupError, w).
Proof.
  intros Hj Hp. py_unfold.
  rewrite Hj, Hp. reflexivity.
Qed.

Lemma stop_training_no_record (p : string) (w : World) :
  active_trainings w !! p = None -> stop_training p w = (Return tt, w).
Proof.
  intros H. py_unfold. rewrite H. reflexivity.
Qed.

Lemma stop_training_gone (p : string) (w : World) (j : Job) :
  active_trainings w !! p = Some j ->
  procs w !! process j = None ->
  process j ∈ finalised w ->
  stop_training p w = (Raise ProcessLookupError, w).
Proof.
  intros Hj Hp Hf. py_unfold. unfold OS.request_on_reaped.
  rewrite Hj. cbv beta iota. rewrite Hp.
  by rewrite (bool_decide_eq_true_2 _ Hf).
Qed.

Lemma stop_training_reaped (p : string) (w : World) (j : Job) :
  active_trainings w !! p = Some j ->
  procs w !! process j = None ->
  process j ∉ finalised w ->
  stop_training p w
  = (Return tt,
     with_trainings (alter (fun j =>
         {| process := process j; status := stopped; iteration := iteration j;
            loss := loss j; config := config j |}) p) w).
Proof.
  intros Hj Hp Hf. py_unfold. unfold OS.request_on_reaped.
  rewrite Hj. cbv beta iota. rewrite Hp.
  rewrite (bool_decide_eq_false_2 _ Hf). cbv beta iota.
  rewrite Hp. reflexivity.
Qed.

Lemma stop_time_bound (pr : Proc) :
  (stop_time pr <= OS.timeout + kill_delay pr)%nat.
Proof.
  unfold stop_time. destruct (suspended pr); [lia|].
  destruct (term_delay pr) as [d|]; [|lia].
  destruct (d <? OS.timeout)%nat eqn:E; [|lia].
  apply Nat.ltb_lt in E. lia.
Qed.

Lemma stop_state_eq (f : gmap string Job -> gmap string Job)
  (g : gmap nat Proc -> gmap nat Proc) (a b : nat) (w : World) :
  (Return tt, with_trainings f (advance b (with_procs g (advance a w))))
  = (Return tt, with_trainings f (advance (a + b) (with_procs g w))).
Proof.
  destruct w. unfold with_trainings, advance, with_procs; simpl.
  by rewrite Nat.add_assoc.
Qed.

Lemma stop_training_live (p : string) (w : World) (j : Job) (pr : Proc) :
  active_trainings w !! p = Some j ->
  procs w !! process j = Some pr ->
  stop_training p w
  = (Return tt,
     with_trainings (alter (fun j =>
         {| process := process j; status := stopped; iteration := iteration j;
            loss := loss j; config := config j |}) p)
       (advance (stop_time pr) (with_procs (delete (process j)) w))).
Proof.
  intros Hj Hp.
  assert (Hp' : forall t, procs (advance t w) !! process j = Some pr)
    by (intros t; destruct w; exact Hp).
  py_unfold. unfold stop_time.
  rewrite Hj. cbv beta iota. rewrite Hp. cbv beta iota.
  rewrite Hp. cbv beta iota.
  destruct (suspended pr); cbv beta iota.
  - cbn [is_timeout]. rewrite Hp'. apply stop_state_eq.
  - destruct (term_delay pr) as [d|]; cbv beta iota.
    + destruct (d <? OS.timeout)%nat; cbv beta iota; [reflexivity|].
      cbn [is_timeout]. rewrite Hp'. apply stop_state_eq.
    + cbn [is_timeout]. rewrite Hp'. apply stop_state_eq.
Qed.

End TrainingFacts.

(** C1 (as amended). [start_training] makes no check for a job already
    recorded for the project. When the configuration is rendered and the
    child is launched, it returns normally and stores a fresh record for
    the project (status running, iteration 0, loss 0.0, the new process
    handle), replacing whatever record was there. When it fails, the
    exception is raised to the caller and the table of jobs is as it was. *)
Theorem start_training_replaces (project_path : string) (cfg : Config)
  (w : World) :
  (forall (name : string) (child : Proc),
     cfg !! "scene_name" = Some name ->
     writable w = true ->
     launchable w = Some child ->
     exists w',
       TrainingManager.start_training project_path cfg w = (Return tt, w')
       /\ active_trainings w'
          = <[name := TrainingManager.new_job (next_pid w) cfg]>
              (active_trainings w)
       /\ procs w' = <[next_pid w := child]> (procs w))
  /\ (forall (e : Exn) (w' : World),
        TrainingManager.start_training project_path cfg w = (Raise e, w') ->
        active_trainings w' = active_trainings w).
Proof.
  split.
  - intros name child Hn Hw Hl.
    destruct (start_training_success project_path cfg w name child Hn Hw Hl)
      as (w' & H1 & H2 & H3 & _).
    exists w'. auto.
  - intros e w'. apply start_training_failure.
Qed.

Lemma start_training_replaces_witness :
  exists w',
    TrainingManager.start_training "projects/demo" Sample.cfg
      (Sample.with_job running Sample.child) = (Return tt, w')
    /\ active_trainings w'
       = <["demo" := TrainingManager.new_job 8 Sample.cfg]>
           {[ "demo" := Sample.job running ]}
    /\ procs w' = <[8%nat := Sample.child]> {[ 7%nat := Sample.child ]}.
Proof.
  apply (proj1 (start_training_replaces "projects/demo" Sample.cfg
                  (Sample.with_job running Sample.child))
           "demo" Sample.child); reflexivity.
Defined.

(** C1, the claim as stated fails: project "demo" has a running job at
    iteration 500; a second start returns normally, with no error, and
    the job's record is replaced by a fresh one with another process
    handle and iteration 0. *)
Lemma start_training_no_conflict :
  active_trainings (Sample.with_job running Sample.child) !! "demo"
    = Some (Sample.job running)
  /\ fst (TrainingManager.start_training "projects/demo" Sample.cfg
            (Sample.with_job running Sample.child)) = Return tt
  /\ active_trainings
       (snd (TrainingManager.start_training "projects/demo" Sample.cfg
               (Sample.with_job running Sample.child))) !! "demo"
     = Some {| process := 8; status := running; iteration := 0;
               loss := FFinite 0; config := Sample.cfg |}.
Proof. repeat split; vm_compute; reflexivity. Qed.

(** C2 (as amended). [pause_training] looks at whether the project has a
    record, not at its status. Without a record it returns normally and
    changes nothing. With a record whose child exists, it sends the
    stop-execution signal, so the child is suspended, and sets the status
    to paused whatever it was; from running this is the transition to
    paused. With a record whose child is gone, the operating system's
    error is raised and nothing changes. *)
Theorem pause_training_unguarded (p : string) (w : World) :
  (active_trainings w !! p = None ->
   TrainingManager.pause_training p w = (Return tt, w))
  /\ (forall (j : Job) (pr : Proc),
        active_trainings w !! p = Some j ->
        procs w !! process j = Some pr ->
        exists w',
          TrainingManager.pause_training p w = (Return tt, w')
          /\ active_trainings w' !! p
             = Some {| process := process j; status := paused;
                       iteration := iteration j; loss := loss j;
                       config := config j |}
          /\ (forall q, q <> p ->
                active_trainings w' !! q = active_trainings w !! q)
          /\ procs w' !! process j
             = Some {| suspended := true; term_delay := term_delay pr;
                       kill_delay := kill_delay pr |})
  /\ (forall j : Job,
        active_trainings w !! p = Some j ->
        procs w !! process j = None ->
        TrainingManager.pause_training p w = (Raise ProcessLookupError, w)).
Proof.
  split; [apply pause_training_no_record|]. split.
  - intros j pr Hj Hp. eexists. split; [by apply pause_training_live|].
    destruct w; simpl in *. repeat split.
    + by rewrite lookup_alter_eq, Hj.
    + intros q Hq. by rewrite lookup_alter_ne.
    + by rewrite lookup_insert_eq.
  - intros j. apply pause_training_gone.
Qed.

Lemma pause_training_unguarded_witness :
  exists w',
    TrainingManager.pause_training "demo"
      (Sample.with_job running Sample.child) = (Return tt, w')
    /\ active_trainings w' !! "demo" = Some (Sample.job paused)
    /\ (forall q, q <> "demo" ->
          active_trainings w' !! q
          = active_trainings (Sample.with_job running Sample.child) !! q)
    /\ procs w' !! 7%nat
       = Some {| suspended := true; term_delay := Some 3%nat;
                 kill_delay := 1%nat |}.
Proof.
  apply (proj1 (proj2 (pause_training_unguarded "demo"
                         (Sample.with_job running Sample.child)))
           (Sample.job running) Sample.child); reflexivity.
Defined.

(** C2, the claim as stated fails: a pause for a project that was never
    started returns normally, with no error; so does a pause of a paused
    job; and a pause of a job in the terminal status error whose child is
    still alive returns normally and moves the job to paused. *)
Lemma pause_training_not_rejected :
  TrainingManager.pause_training "demo" Sample.idle = (Return tt, Sample.idle)
  /\ fst (TrainingManager.pause_training "demo"
            (Sample.with_job paused
               {| suspended := true; term_delay := Some 3%nat;
                  kill_delay := 1%nat |})) = Return tt
  /\ fst (TrainingManager.pause_training "demo"
            (Sample.with_job error Sample.child)) = Return tt
  /\ active_trainings
       (snd (TrainingManager.pause_training "demo"
               (Sample.with_job error Sample.child))) !! "demo"
     = Some (Sample.job paused).
Proof. repeat split; vm_compute; reflexivity. Qed.

Section StopFacts.

Import TrainingManager.

Lemma terminate_live (pid : nat) (w : World) (pr : Proc) :
  procs w !! pid = Some pr -> OS.terminate pid w = (Return tt, w).
Proof. intros H. unfold OS.terminate. by rewrite H. Qed.

Lemma stop_time_graceful (pr : Proc) (d : nat) :
  suspended pr = false -> term_delay pr = Some d -> (d < 10)%nat ->
  stop_time pr = d.
Proof.
  intros Hs Ht Hd. unfold stop_time. rewrite Hs, Ht.
  apply Nat.ltb_lt in Hd. unfold OS.timeout. by rewrite Hd.
Qed.

Lemma stop_time_forced (pr : Proc) :
  suspended pr = true \/ term_delay pr = None
  \/ (exists d, term_delay pr = Some d /\ (10 <= d)%nat) ->
  stop_time pr = (10 + kill_delay pr)%nat.
Proof.
  unfold stop_time, OS.timeout.
  intros [Hs|[Ht|(d & Ht & Hd)]].
  - by rewrite Hs.
  - rewrite Ht. by destruct (suspended pr).
  - rewrite Ht. destruct (suspended pr); [reflexivity|].
    apply Nat.ltb_ge in Hd. by rewrite Hd.
Qed.

(** A stop of a job that is already stopped and whose child has been
    reaped leaves the state as it is. *)
Lemma stop_training_again (p : string) (w : World) (j : Job) :
  active_trainings w !! p = Some j ->
  status j = stopped ->
  procs w !! process j = None ->
  (process j ∈ finalised w ->
   stop_training p w = (Raise ProcessLookupError, w))
  /\ (process j ∉ finalised w -> stop_training p w = (Return tt, w)).
Proof.
  intros Hj Hs Hp. split; intros Hf.
  - by apply stop_training_gone with j.
  - rewrite (stop_training_reaped p w j Hj Hp Hf). f_equal.
    destruct w; unfold with_trainings; simpl in *. f_equal.
    apply alter_id. intros j' Hj'. rewrite Hj in Hj'.
    injection Hj' as <-. destruct j; simpl in *. by subst.
Qed.

(** Once the handle of a reaped child has been closed, a stop is
    refused. *)
Lemma stop_training_finalised (p : string) (w : World) (j : Job) :
  active_trainings w !! p = Some j ->
  procs w !! process j = None ->
  stop_training p (OS.finalise (process j) w)
  = (Raise ProcessLookupError, OS.finalise (process j) w).
Proof.
  intros Hj Hp. apply stop_training_gone with j.
  - by destruct w.
  - by destruct w.
  - destruct w; simpl. set_solver.
Qed.

End StopFacts.

(** C3 (as amended). [stop_training] looks at whether the project has a
    record, not at its status. Without a record it returns normally and
    changes nothing. With a record whose child exists, the termination
    request is accepted and the call returns normally with the child
    reaped and the status stopped, whatever the status was (also a
    terminal one): after the child's own time to exit when the child is
    not suspended and exits within the grace period of 10 time units, and
    otherwise after the whole grace period and the time of the kill. A
    further call leaves the state, and so the status stopped, as it is;
    it returns normally as long as the handle of the reaped child has not
    been closed, and once it has been closed the termination request is
    refused with [ProcessLookupError]. With a record whose child has been
    reaped otherwise (a job that completed), the call is refused in the
    same way once the handle has been closed, and until then it returns
    normally and sets the status to stopped. *)
Theorem stop_training_stops (p : string) (w : World) :
  (active_trainings w !! p = None ->
   TrainingManager.stop_training p w = (Return tt, w))
  /\ (forall (j : Job) (pr : Proc),
        active_trainings w !! p = Some j ->
        procs w !! process j = Some pr ->
        OS.terminate (process j) w = (Return tt, w)
        /\ exists w',
             TrainingManager.stop_training p w = (Return tt, w')
             /\ active_trainings w' !! p
                = Some {| process := process j; status := stopped;
                          iteration := iteration j; loss := loss j;
                          config := config j |}
             /\ (forall q, q <> p ->
                   active_trainings w' !! q = active_trainings w !! q)
             /\ procs w' = delete (process j) (procs w)
             /\ clock w' = (clock w + stop_time pr)%nat
             /\ (stop_time pr <= 10 + kill_delay pr)%nat
             /\ (forall d, suspended pr = false -> term_delay pr = Some d ->
                   (d < 10)%nat -> stop_time pr = d)
             /\ (suspended pr = true \/ term_delay pr = None
                 \/ (exists d, term_delay pr = Some d /\ (10 <= d)%nat) ->
                 stop_time pr = (10 + kill_delay pr)%nat)
             /\ (process j ∈ finalised w' ->
                 TrainingManager.stop_training p w'
                 = (Raise ProcessLookupError, w'))
             /\ (process j ∉ finalised w' ->
                 TrainingManager.stop_training p w' = (Return tt, w'))
             /\ TrainingManager.stop_training p (OS.finalise (process j) w')
                = (Raise ProcessLookupError, OS.finalise (process j) w'))
  /\ (forall j : Job,
        active_trainings w !! p = Some j ->
        procs w !! process j = None ->
        (process j ∈ finalised w ->
         TrainingManager.stop_training p w = (Raise ProcessLookupError, w))
        /\ (process j ∉ finalised w ->
            TrainingManager.stop_training p w
            = (Return tt,
               with_trainings
                 (alter (fun j => with_status j stopped) p) w))).
Proof.
  split; [apply stop_training_no_record|]. split.
  - intros j pr Hj Hp. split; [by apply terminate_live with pr|].
    eexists. split; [by apply stop_training_live|].
    assert (Hbound := stop_time_bound pr). unfold OS.timeout in Hbound.
    assert (Hj' : active_trainings
                    (with_trainings (alter (fun j0 => with_status j0 stopped) p)
                       (advance (stop_time pr)
                          (with_procs (delete (process j)) w))) !! p
                  = Some (with_status j stopped)).
    { destruct w; simpl in *. by rewrite lookup_alter_eq, Hj. }
    assert (Hp' : procs
                    (with_trainings (alter (fun j0 => with_status j0 stopped) p)
                       (advance (stop_time pr)
                          (with_procs (delete (process j)) w)))
                    !! process (with_status j stopped) = None).
    { destruct w; simpl in *. by rewrite lookup_delete_eq. }
    destruct (stop_training_again p _ _ Hj' eq_refl Hp') as [Hclosed Hopen].
    split; [exact Hj'|].
    split; [intros q Hq; destruct w; simpl; by rewrite lookup_alter_ne|].
    split; [by destruct w|].
    split; [by destruct w|].
    split; [exact Hbound|].
    split; [apply stop_time_graceful|].
    split; [apply stop_time_forced|].
    split; [exact Hclosed|]. split; [exact Hopen|].
    exact (stop_training_finalised p _ _ Hj' Hp').
  - intros j Hj Hp. split; intros Hf.
    + by apply stop_training_gone with j.
    + by apply stop_training_reaped with j.
Qed.

Lemma stop_training_stops_witness :
  exists w',
    TrainingManager.stop_training "demo"
      (Sample.with_job paused Sample.stubborn) = (Return tt, w')
    /\ active_trainings w' !! "demo" = Some (Sample.job stopped)
    /\ procs w' = delete 7%nat {[ 7%nat := Sample.stubborn ]}
    /\ clock w' = (0 + (10 + 2))%nat.
Proof.
  destruct (proj2 (proj1 (proj2 (stop_training_stops "demo"
                                   (Sample.with_job paused Sample.stubborn)))
                     (Sample.job paused) Sample.stubborn eq_refl eq_refl))
    as (w' & Hstop & Hrecord & _ & Hprocs & Hclock & _).
  exists w'. split; [exact Hstop|]. split; [exact Hrecord|].
  split; [exact Hprocs | exact Hclock].
Defined.

(** C3, the claim as stated fails. A job already in the terminal status
    error, whose child is still alive, is not left alone by a stop: its
    child is terminated and its status becomes stopped. A job that
    completed is not left alone either: a stop returns normally and
    overwrites the status completed with stopped. And after a stop that
    succeeded, a second stop raises once the event loop has closed the
    handle of the reaped child. *)
Lemma stop_training_not_idempotent :
  active_trainings
    (snd (TrainingManager.stop_training "demo"
            (Sample.with_job error Sample.child))) !! "demo"
  = Some (Sample.job stopped)
  /\ procs (snd (TrainingManager.stop_training "demo"
                   (Sample.with_job error Sample.child))) !! 7%nat = None
  /\ status <$> active_trainings
       (snd (Monitor._monitor_training "demo" 7 [] 
               (Sample.with_job running Sample.child))) !! "demo"
     = Some completed
  /\ status <$> active_trainings
       (snd (TrainingManager.stop_training "demo"
               (snd (Monitor._monitor_training "demo" 7 []
                       (Sample.with_job running Sample.child))))) !! "demo"
     = Some stopped
  /\ fst (TrainingManager.stop_training "demo"
            (Sample.with_job running Sample.child)) = Return tt
  /\ fst (TrainingManager.stop_training "demo"
            (OS.finalise 7
               (snd (TrainingManager.stop_training "demo"
                       (Sample.with_job running Sample.child)))))
     = Raise ProcessLookupError.
Proof. repeat split; vm_compute; reflexivity. Qed.

(** C10. For a project with no record in the table of jobs, [get_status]
    returns the record whose status is "not_started", without raising;
    and in every case [get_status] raises nothing and leaves the table of
    jobs, and the whole state, as it was. *)
Theorem get_status_reads (p : string) (w : World) :
  snd (TrainingManager.get_status p w) = w
  /\ (exists r, fst (TrainingManager.get_status p w) = Return r)
  /\ (active_trainings w !! p = None ->
      TrainingManager.get_status p w = (Return not_started, w))
  /\ (forall j, active_trainings w !! p = Some j ->
      TrainingManager.get_status p w = (Return (job_record j), w)).
Proof.
  py_unfold.
  destruct (active_trainings w !! p) as [j|]; repeat split; eauto;
    try discriminate; congruence.
Qed.

Lemma get_status_reads_witness :
  TrainingManager.get_status "demo" Sample.idle
  = (Return not_started, Sample.idle).
Proof.
  apply (proj1 (proj2 (proj2 (get_status_reads "demo" Sample.idle)))).
  reflexivity.
Defined.

(** ** The reconstruction pipeline *)

(** Unfolds the monadic plumbing of the pipeline. *)
Ltac colmap_unfold :=
  cbv beta iota zeta delta
    [COLMAPProcessor.process COLMAPProcessor.stages
     COLMAPProcessor._feature_extraction COLMAPProcessor._feature_matching
     COLMAPProcessor._sparse_reconstruction
     COLMAPProcessor._image_undistortion COLMAPProcessor._run_command
     COLMAPProcessor.mkdir COLMAPProcessor.read_fs
     bind ret raise try_catch any_exception fs started fst snd].

(** Splits on how the next external command, decoding of what a command
    wrote, folder creation or folder lookup of the run ends. *)
Ltac next_command exec :=
  match goal with
  | |- context [decode ?c] =>
      destruct c as [?text|]; cbn [decode]
  | |- context [FSys.mkdir ?d ?n ?f] =>
      destruct (FSys.mkdir d n f) as [?f|?e]
  | |- context [exec ?c ?f] =>
      let rc := fresh "rc" in
      destruct (exec c f) as [?e|rc ?out ?err ?f];
      [|destruct (Z.eqb_spec rc 0); [subst rc|]]
  | |- context [COLMAPProcessor.reconstruction_folder ?f ?p] =>
      destruct (COLMAPProcessor.reconstruction_folder f p) as [?r|?e]
  end; cbv beta iota zeta delta [fst snd fs started].

(** The same, and at the end how reading the statistics ends. *)
Ltac next_step exec :=
  first
    [ next_command exec
    | match goal with
      | |- context [COLMAPProcessor._get_statistics ?f ?p] =>
          destruct (COLMAPProcessor._get_statistics f p) as [?stats|?e]
      end; cbv beta iota zeta delta [fst snd fs started] ].

Section PipelineFacts.

Variable exec : list string -> FileSystem -> Outcome.
Variable colmap_path : string.

Lemma process_stages (images_path output_path camera_model quality : string)
  (f : FileSystem) :
  let run := COLMAPProcessor.process exec colmap_path images_path output_path
               camera_model quality {| fs := f; started := [] |} in
  map COLMAPProcessor.stage_of (started (snd run))
    `prefix_of` COLMAPProcessor.stage_names
  /\ forall (i : nat) (r : list string * Z),
       started (snd run) !! i = Some r -> snd r <> 0 ->
       length (started (snd run)) = S i
       /\ ((exists msg, fst run = Raise (RuntimeError msg))
           \/ fst run = Raise UnicodeDecodeError).
Proof.
  colmap_unfold.
  repeat next_step exec.
  all: split; [unfold COLMAPProcessor.stage_names; simpl; eexists; reflexivity|].
  all: 
    intros i run Hi Hrc;
    repeat (destruct i as [|i]; simpl in Hi; simplify_eq/=; eauto).
Qed.

End PipelineFacts.

(** C5. In a run of [process], the commands started are, in order, an
    initial segment of feature extraction, matching, sparse
    reconstruction, undistortion; after a command that exits with a
    non-zero status nothing more is started and the run ends with an
    error, the [RuntimeError] that carries the command's stderr or, when
    that stderr is not UTF-8, the decoding error; so every command
    started before another one exited with status 0. *)
Theorem process_stage_order (exec : list string -> FileSystem -> Outcome)
  (colmap_path images_path output_path camera_model quality : string)
  (f : FileSystem) :
  let run := COLMAPProcessor.process exec colmap_path images_path output_path
               camera_model quality {| fs := f; started := [] |} in
  map COLMAPProcessor.stage_of (started (snd run))
    `prefix_of` COLMAPProcessor.stage_names
  /\ (forall (i : nat) (r : list string * Z),
        started (snd run) !! i = Some r -> snd r <> 0 ->
        length (started (snd run)) = S i
        /\ ((exists msg, fst run = Raise (RuntimeError msg))
            \/ fst run = Raise UnicodeDecodeError))
  /\ (forall (i j : nat) (r : list string * Z),
        started (snd run) !! i = Some r ->
        (i < j < length (started (snd run)))%nat ->
        snd r = 0).
Proof.
  intros run.
  destruct (process_stages exec colmap_path images_path output_path
              camera_model quality f) as [Hprefix Hfail].
  fold run in Hprefix, Hfail.
  split; [exact Hprefix|]. split; [exact Hfail|].
  intros i j r Hi Hij.
  destruct (Z.eq_dec (snd r) 0) as [|Hne]; [assumption|].
  destruct (Hfail i r Hi Hne) as [Hlen _]. lia.
Qed.

Lemma process_stage_order_witness :
  length (started (snd (COLMAPProcessor.process
                          (SamplePipeline.exec_failing "mapper") "colmap"
                          "project/images" "out" "PINHOLE" "high"
                          {| fs := SamplePipeline.reconstructed;
                             started := [] |}))) = 3%nat
  /\ ((exists msg,
         fst (COLMAPProcessor.process
                (SamplePipeline.exec_failing "mapper") "colmap"
                "project/images" "out" "PINHOLE" "high"
                {| fs := SamplePipeline.reconstructed; started := [] |})
         = Raise (RuntimeError msg))
      \/ fst (COLMAPProcessor.process
                (SamplePipeline.exec_failing "mapper") "colmap"
                "project/images" "out" "PINHOLE" "high"
                {| fs := SamplePipeline.reconstructed; started := [] |})
         = Raise UnicodeDecodeError).
Proof.
  apply (proj1 (proj2 (process_stage_order
                         (SamplePipeline.exec_failing "mapper") "colmap"
                         "project/images" "out" "PINHOLE" "high"
                         SamplePipeline.reconstructed))
           2%nat
           (COLMAPProcessor.sparse_reconstruction_cmd "colmap"
              "out/database.db" "project/images" "out/sparse", 1)).
  - vm_compute. reflexivity.
  - vm_compute. discriminate.
Defined.

Section FolderFacts.

Import COLMAPProcessor.

Lemma count_lines_text (f : FileSystem) (file : string)
  (measure : list string -> Z) :
  absent_or_text f file ->
  count_lines f file measure
  = Return (match f !! file with
            | Some _ => measure (data_lines f file)
            | None => 0
            end).
Proof.
  unfold absent_or_text, count_lines, data_lines, FSys.exists_,
    FSys.read_lines.
  destruct (f !! file) as [[| |]|]; simpl; intros H;
    try contradiction; reflexivity.
Qed.

Lemma get_statistics_never_raises (f : FileSystem) (sparse_path : string) :
  exists stats, _get_statistics f sparse_path = Return stats.
Proof.
  unfold _get_statistics, try_except.
  destruct (statistics_body f sparse_path); eauto.
Qed.

Lemma get_statistics_no_folder (f : FileSystem) (sparse_path : string) (e : Exn) :
  reconstruction_folder f sparse_path = Raise e ->
  _get_statistics f sparse_path = Return ∅.
Proof.
  intros H. unfold _get_statistics, statistics_body. rewrite H. reflexivity.
Qed.

(** An exception of the stages is the exception of [process]. *)
Lemma process_propagates (exec : list string -> FileSystem -> Outcome)
  (colmap_path images_path output_path camera_model quality : string)
  (s s1 s2 s3 : Pipeline) (e : Exn) :
  mkdir (normalise output_path) "sparse" s = (Return tt, s1) ->
  mkdir (normalise output_path) "dense" s1 = (Return tt, s2) ->
  stages exec colmap_path (normalise images_path) (normalise output_path)
    camera_model quality s2 = (Raise e, s3) ->
  process exec colmap_path images_path output_path camera_model quality s
    = (Raise e, s3).
Proof.
  intros H1 H2 H3. unfold process, try_catch, bind.
  cbv zeta. rewrite H1, H2, H3. reflexivity.
Qed.

(** When the stages succeed, so does [process], with whatever statistics
    could be read. *)
Lemma process_succeeds (exec : list string -> FileSystem -> Outcome)
  (colmap_path images_path output_path camera_model quality : string)
  (s s1 s2 s3 : Pipeline) :
  mkdir (normalise output_path) "sparse" s = (Return tt, s1) ->
  mkdir (normalise output_path) "dense" s1 = (Return tt, s2) ->
  stages exec colmap_path (normalise images_path) (normalise output_path)
    camera_model quality s2 = (Return tt, s3) ->
  exists stats,
    _get_statistics (fs s3) (path_join (normalise output_path) "sparse")
      = Return stats
    /\ process exec colmap_path images_path output_path camera_model quality s
       = (Return {| res_status := "success";
                    res_output_path := normalise output_path;
                    res_statistics := stats |}, s3).
Proof.
  intros H1 H2 H3.
  destruct (get_statistics_never_raises (fs s3)
              (path_join (normalise output_path) "sparse")) as [stats Hs].
  exists stats. split; [assumption|].
  unfold process, try_catch, bind, read_fs, ret.
  cbv zeta. rewrite H1, H2, H3, Hs. reflexivity.
Qed.

Lemma get_statistics_counts (f : FileSystem) (sparse_path r : string) :
  reconstruction_folder f sparse_path = Return r ->
  absent_or_text f (path_join r "cameras.txt") ->
  absent_or_text f (path_join r "images.txt") ->
  absent_or_text f (path_join r "points3D.txt") ->
  _get_statistics f sparse_path
  = Return {[ "num_cameras" := len (data_lines f (path_join r "cameras.txt"));
              "num_images" := len (data_lines f (path_join r "images.txt")) / 2;
              "num_points" := len (data_lines f (path_join r "points3D.txt")) ]}.
Proof.
  intros Hr Hc Hi Hp. unfold _get_statistics, statistics_body.
  rewrite Hr. simpl.
  rewrite (count_lines_text _ _ _ Hc), (count_lines_text _ _ _ Hi),
    (count_lines_text _ _ _ Hp). simpl.
  unfold data_lines.
  destruct (f !! path_join r "cameras.txt") as [[| |]|];
    destruct (f !! path_join r "images.txt") as [[| |]|];
    destruct (f !! path_join r "points3D.txt") as [[| |]|];
    reflexivity.
Qed.

End FolderFacts.

(** C8 (as amended). The reconstruction folder is the subfolder "0" when
    it exists; otherwise it is the first entry of the parent folder in
    the order the listing gives them, with no sorting; and when the
    parent has no entry the lookup raises [IndexError]. In the
    undistortion stage that error is raised before any command is
    started, and an error of the stages is the error of the pipeline. In
    the statistics the same error is caught and the result is empty. *)
Theorem reconstruction_folder_resolution :
  (forall (f : FileSystem) (sparse_path : string),
     FSys.exists_ f (path_join sparse_path "0") = true ->
     COLMAPProcessor.reconstruction_folder f sparse_path
     = Return (path_join sparse_path "0"))
  /\ (forall (f : FileSystem) (sparse_path first : string) (rest : list string),
        FSys.exists_ f (path_join sparse_path "0") = false ->
        FSys.glob f sparse_path = first :: rest ->
        COLMAPProcessor.reconstruction_folder f sparse_path = Return first)
  /\ (forall (f : FileSystem) (sparse_path : string),
        FSys.exists_ f (path_join sparse_path "0") = false ->
        FSys.glob f sparse_path = [] ->
        COLMAPProcessor.reconstruction_folder f sparse_path = Raise IndexError
        /\ COLMAPProcessor._get_statistics f sparse_path = Return ∅
        /\ forall exec colmap_path images_path dense_path l,
             COLMAPProcessor._image_undistortion exec colmap_path images_path
               sparse_path dense_path {| fs := f; started := l |}
             = (Raise IndexError, {| fs := f; started := l |}))
  /\ (forall exec colmap_path images_path output_path camera_model quality
             (s s1 s2 s3 : Pipeline) (e : Exn),
        COLMAPProcessor.mkdir (normalise output_path) "sparse" s
          = (Return tt, s1) ->
        COLMAPProcessor.mkdir (normalise output_path) "dense" s1
          = (Return tt, s2) ->
        COLMAPProcessor.stages exec colmap_path (normalise images_path)
          (normalise output_path) camera_model quality s2 = (Raise e, s3) ->
        COLMAPProcessor.process exec colmap_path images_path output_path
          camera_model quality s = (Raise e, s3)).
Proof.
  split; [|split; [|split]].
  - intros f sparse_path H. unfold COLMAPProcessor.reconstruction_folder.
    by rewrite H.
  - intros f sparse_path first rest H0 Hg.
    unfold COLMAPProcessor.reconstruction_folder. by rewrite H0, Hg.
  - intros f sparse_path H0 Hg.
    assert (Hr : COLMAPProcessor.reconstruction_folder f sparse_path
                 = Raise IndexError).
    { unfold COLMAPProcessor.reconstruction_folder. by rewrite H0, Hg. }
    split; [exact Hr|]. split; [by eapply get_statistics_no_folder|].
    intros exec colmap_path images_path dense_path l.
    unfold COLMAPProcessor._image_undistortion, bind, COLMAPProcessor.read_fs.
    simpl. by rewrite Hr.
  - intros. by eapply process_propagates.
Qed.

Lemma reconstruction_folder_resolution_witness :
  COLMAPProcessor.reconstruction_folder SamplePipeline.unsorted "out/sparse"
  = Return "out/sparse/b".
Proof.
  apply (proj1 (proj2 reconstruction_folder_resolution)
           SamplePipeline.unsorted "out/sparse" "out/sparse/b"
           ["out/sparse/a"]); vm_compute; reflexivity.
Defined.

(** C8, the claim as stated fails: with no folder "0" and the entries
    listed as "b", "a", the folder chosen is "b", which is not the first
    in lexicographic order; and on an empty parent folder the statistics
    end with an empty result, not with an error. *)
Lemma reconstruction_folder_not_sorted :
  FSys.exists_ SamplePipeline.unsorted "out/sparse/0" = false
  /\ FSys.glob SamplePipeline.unsorted "out/sparse"
     = ["out/sparse/b"; "out/sparse/a"]
  /\ COLMAPProcessor.reconstruction_folder SamplePipeline.unsorted "out/sparse"
     = Return "out/sparse/b"
  /\ String.compare "out/sparse/a" "out/sparse/b" = Lt
  /\ COLMAPProcessor._get_statistics SamplePipeline.empty_sparse "out/sparse"
     = Return ∅.
Proof. repeat split; vm_compute; reflexivity. Qed.

(** C9. When the points file of the reconstruction folder has 5 lines
    that are not comments, the cameras file has 2 and there is no images
    file, the statistics are 5 points, 2 cameras and 0 images. The
    statistics never raise: absent files count as 0, a failure while
    looking for the folder or reading a file gives the empty result, and
    a pipeline whose stages succeeded returns its success, with the
    output path as [Path] prints it and whatever statistics could be
    read. *)
Theorem statistics_counts :
  (forall (f : FileSystem) (sparse_path r : string) (cameras points : list string),
     COLMAPProcessor.reconstruction_folder f sparse_path = Return r ->
     f !! path_join r "points3D.txt" = Some (File points) ->
     length (List.filter COLMAPProcessor.not_comment points) = 5%nat ->
     f !! path_join r "cameras.txt" = Some (File cameras) ->
     length (List.filter COLMAPProcessor.not_comment cameras) = 2%nat ->
     f !! path_join r "images.txt" = None ->
     COLMAPProcessor._get_statistics f sparse_path
     = Return {[ "num_cameras" := 2; "num_images" := 0; "num_points" := 5 ]})
  /\ (forall (f : FileSystem) (sparse_path : string),
        exists stats, COLMAPProcessor._get_statistics f sparse_path = Return stats)
  /\ (forall (f : FileSystem) (sparse_path r : string),
        COLMAPProcessor.reconstruction_folder f sparse_path = Return r ->
        absent_or_text f (path_join r "cameras.txt") ->
        absent_or_text f (path_join r "images.txt") ->
        absent_or_text f (path_join r "points3D.txt") ->
        COLMAPProcessor._get_statistics f sparse_path
        = Return {[ "num_cameras" :=
                      COLMAPProcessor.len (data_lines f (path_join r "cameras.txt"));
                    "num_images" :=
                      COLMAPProcessor.len (data_lines f (path_join r "images.txt")) / 2;
                    "num_points" :=
                      COLMAPProcessor.len (data_lines f (path_join r "points3D.txt")) ]})
  /\ (forall (f : FileSystem) (sparse_path : string) (e : Exn),
        COLMAPProcessor.statistics_body f sparse_path = Raise e ->
        COLMAPProcessor._get_statistics f sparse_path = Return ∅)
  /\ (forall exec colmap_path images_path output_path camera_model quality
             (s s1 s2 s3 : Pipeline),
        COLMAPProcessor.mkdir (normalise output_path) "sparse" s
          = (Return tt, s1) ->
        COLMAPProcessor.mkdir (normalise output_path) "dense" s1
          = (Return tt, s2) ->
        COLMAPProcessor.stages exec colmap_path (normalise images_path)
          (normalise output_path) camera_model quality s2 = (Return tt, s3) ->
        exists stats,
          COLMAPProcessor._get_statistics (fs s3)
            (path_join (normalise output_path) "sparse") = Return stats
          /\ COLMAPProcessor.process exec colmap_path images_path output_path
               camera_model quality s
             = (Return {| res_status := "success";
                          res_output_path := normalise output_path;
                          res_statistics := stats |}, s3)).
Proof.
  split; [|split; [|split; [|split]]].
  - intros f sparse_path r cameras points Hr Hp Hp5 Hc Hc2 Hi.
    rewrite (get_statistics_counts f sparse_path r Hr);
      unfold absent_or_text, data_lines; rewrite ?Hp, ?Hc, ?Hi; try exact I.
    unfold COLMAPProcessor.len. rewrite Hp5, Hc2. reflexivity.
  - apply get_statistics_never_raises.
  - apply get_statistics_counts.
  - intros f sparse_path e H. unfold COLMAPProcessor._get_statistics.
    by rewrite H.
  - intros. by eapply process_succeeds.
Qed.

Lemma statistics_counts_witness :
  COLMAPProcessor._get_statistics SamplePipeline.reconstructed "out/sparse"
  = Return {[ "num_cameras" := 2; "num_images" := 0; "num_points" := 5 ]}.
Proof.
  apply (proj1 statistics_counts SamplePipeline.reconstructed "out/sparse"
           "out/sparse/0"
           ["# Camera list with one line of data per camera:";
            "1 PINHOLE 640 480 500 500 320 240";
            "2 PINHOLE 640 480 510 510 320 240"]
           ["# 3D point list with one line of data per point:";
            "1 0.1 0.2 0.3 255 255 255 0.5";
            "2 0.4 0.5 0.6 255 255 255 0.5";
            "3 0.7 0.8 0.9 255 255 255 0.5";
            "4 1.0 1.1 1.2 255 255 255 0.5";
            "5 1.3 1.4 1.5 255 255 255 0.5"]);
    vm_compute; reflexivity.
Defined.

(** * Further properties of the code *)

(** ** The monitoring task *)

Section MonitorFacts.

Lemma delivered_nil (w : World) : delivered [] w w.
Proof. split; reflexivity. Qed.

Lemma delivered_app (ms1 ms2 : list Message) (w w1 w2 : World) :
  delivered ms1 w w1 -> delivered ms2 w1 w2 -> delivered (ms1 ++ ms2) w w2.
Proof.
  intros [Hc1 Hs1] [Hc2 Hs2]. split; [congruence|].
  rewrite Hs2, Hs1, Hc1. unfold publish. by rewrite foldl_app.
Qed.

Lemma delivered_broadcast (m : Message) (w : World) :
  delivered [m] w
    (with_sockets (fun s => foldl (deliver_to m) s (active_connections w)) w).
Proof. split; by destruct w. Qed.

Lemma delivered_trainings (f : gmap string Job -> gmap string Job) (w : World) :
  delivered [] w (with_trainings f w).
Proof. split; by destruct w. Qed.

Lemma delivered_procs (f : gmap nat Proc -> gmap nat Proc) (w : World) :
  delivered [] w (with_procs f w).
Proof. split; by destruct w. Qed.

(** With no websocket registered twice, publishing gives each registered
    websocket the messages in order. *)
Lemma publish_received (ms : list Message) (conns : list nat) :
  forall (s : gmap nat WebSocket) (c : nat) (ws : WebSocket),
  NoDup conns -> c ∈ conns -> s !! c = Some ws ->
  publish ms conns s !! c = Some (received ms ws).
Proof.
  induction ms as [|m ms IH]; intros s c ws Hnd Hin Hs; simpl.
  - by rewrite received_nil.
  - change (m :: ms) with ([m] ++ ms). rewrite <- received_app.
    apply IH; [assumption..|]. by apply foldl_deliver_to_present.
Qed.

Lemma set_progress_current (j : Job) : set_progress j (current j) = j.
Proof. by destruct j. Qed.

Lemma current_set_progress (j : Job) (pr : Progress) :
  current (set_progress j pr) = pr.
Proof. by destruct pr. Qed.

(** One line: the record takes the progress read, if any, and the
    messages of the line are published. *)
Lemma monitor_line_spec (p raw : string) (w : World) (j : Job) :
  active_trainings w !! p = Some j ->
  exists w',
    Monitor.monitor_line p raw w = (Return tt, w')
    /\ delivered (line_messages p raw) w w'
    /\ active_trainings w'
       = <[p := set_progress j
                  (match Parser._parse_training_output (Str.strip raw) with
                   | Return (Some pr) => pr
                   | _ => current j
                   end)]> (active_trainings w)
    /\ procs w' = procs w.
Proof.
  intros Hj.
  unfold Monitor.monitor_line, line_messages, bind, Monitor.lift.
  destruct (parse_never_raises (Str.strip raw)) as [r ->].
  destruct r as [pr|].
  - unfold Monitor.update, bind, get, modify. rewrite Hj.
    rewrite !broadcast_eq. cbv beta iota.
    eexists. split; [reflexivity|]. split; [|split].
    + change [training_progress p pr; training_log p (Str.strip raw)]
        with ([] ++ [training_progress p pr] ++ [training_log p (Str.strip raw)]).
      eapply delivered_app; [apply delivered_trainings|].
      eapply delivered_app; apply delivered_broadcast.
    + by destruct w.
    + by destruct w.
  - unfold ret. rewrite broadcast_eq. cbv beta iota.
    eexists. split; [reflexivity|]. split; [|split].
    + by apply delivered_broadcast.
    + rewrite set_progress_current. destruct w; simpl in *.
      symmetry. by apply insert_id.
    + by destruct w.
Qed.

(** The loop: it ends as [loop_result] says, its messages are published
    in order, and the record holds the last progress read. *)
Lemma monitor_loop_spec (p : string) (output : list (result string)) :
  forall (w : World) (j : Job),
  active_trainings w !! p = Some j ->
  exists w',
    Monitor.monitor_loop p output w = (loop_result output, w')
    /\ delivered (loop_messages p output) w w'
    /\ active_trainings w'
       = <[p := set_progress j (run_progress output (current j))]>
           (active_trainings w)
    /\ procs w' = procs w.
Proof.
  assert (Hstay : forall (w : World) (j : Job),
            active_trainings w !! p = Some j ->
            active_trainings w
            = <[p := set_progress j (current j)]> (active_trainings w)).
  { intros w j Hj. rewrite set_progress_current. symmetry. by apply insert_id. }
  induction output as [|[raw|e] rest IH]; intros w j Hj; simpl.
  - exists w. repeat split; auto.
  - destruct (String.eqb raw "").
    + exists w. repeat split; auto.
    + unfold bind.
      destruct (monitor_line_spec p raw w j Hj) as (w1 & -> & Hd1 & Ht1 & Hp1).
      set (pr := match Parser._parse_training_output (Str.strip raw) with
                 | Return (Some pr) => pr
                 | _ => current j
                 end) in *.
      assert (Hj1 : active_trainings w1 !! p = Some (set_progress j pr))
        by (rewrite Ht1; apply lookup_insert_eq).
      destruct (IH w1 (set_progress j pr) Hj1) as (w2 & -> & Hd2 & Ht2 & Hp2).
      exists w2. split; [reflexivity|]. split; [|split].
      * by eapply delivered_app.
      * rewrite Ht2, Ht1, insert_insert_eq, current_set_progress.
        f_equal. subst pr.
        destruct (Parser._parse_training_output (Str.strip raw)) as [[pr'|]|];
          reflexivity.
      * congruence.
  - exists w. repeat split; auto.
Qed.

Lemma run_messages_loop (p : string) (output : list (result string)) :
  run_messages p output
  = loop_messages p output
    ++ [match loop_result output with
        | Return _ => training_complete p
        | Raise e => training_error (Some p) e
        end].
Proof.
  induction output as [|[raw|e] rest IH]; simpl; try reflexivity.
  destruct (String.eqb raw ""); [reflexivity|].
  by rewrite IH, app_assoc.
Qed.

Lemma run_status_loop (output : list (result string)) :
  run_status output
  = match loop_result output with Return _ => completed | Raise _ => error end.
Proof.
  induction output as [|[raw|e] rest IH]; simpl; try reflexivity.
  by destruct (String.eqb raw "").
Qed.

Lemma assign_status_spec (p : string) (s : Status) (w : World) (j : Job)
  (m : gmap string Job) :
  active_trainings w = <[p := j]> m ->
  exists w',
    Monitor.assign_status p s w = (Return tt, w')
    /\ delivered [] w w'
    /\ active_trainings w' = <[p := with_status j s]> m
    /\ procs w' = procs w.
Proof.
  intros Hm. unfold Monitor.assign_status, bind, get.
  rewrite Hm, lookup_insert_eq. unfold TrainingManager.set_status, modify.
  eexists. split; [reflexivity|]. split; [apply delivered_trainings|].
  split; [|by destruct w].
  destruct w; simpl in *. rewrite Hm, alter_insert_eq. reflexivity.
Qed.

(** The whole task, for a project that has a record. *)
Lemma monitor_training_spec (p : string) (pid : nat)
  (output : list (result string)) (w : World) (j : Job) :
  active_trainings w !! p = Some j ->
  exists w',
    Monitor._monitor_training p pid output w = (Return tt, w')
    /\ delivered (run_messages p output) w w'
    /\ active_trainings w'
       = <[p := with_status
                  (set_progress j (run_progress output (current j)))
                  (run_status output)]> (active_trainings w)
    /\ procs w' = match loop_result output with
                  | Return _ => delete pid (procs w)
                  | Raise _ => procs w
                  end.
Proof.
  intros Hj.
  destruct (monitor_loop_spec p output w j Hj) as (w1 & Hl & Hd1 & Ht1 & Hp1).
  rewrite run_messages_loop, run_status_loop.
  unfold Monitor._monitor_training, try_catch, bind. rewrite Hl.
  destruct (loop_result output) as [[]|e].
  - unfold Monitor.wait, modify.
    assert (Ht1' : active_trainings (with_procs (delete pid) w1)
                   = <[p := set_progress j (run_progress output (current j))]>
                       (active_trainings w)) by (by destruct w1).
    destruct (assign_status_spec p completed _ _ _ Ht1')
      as (w2 & -> & Hd2 & Ht2 & Hp2).
    rewrite broadcast_eq. cbv beta iota.
    eexists. split; [reflexivity|]. split; [|split].
    + eapply delivered_app; [exact Hd1|].
      change [training_complete p] with ([] ++ [] ++ [training_complete p]).
      eapply delivered_app; [apply delivered_procs|].
      eapply delivered_app; [exact Hd2|].
      apply delivered_broadcast.
    + by destruct w2.
    + destruct w2, w1; simpl in *. congruence.
  - cbn [any_exception].
    destruct (assign_status_spec p error _ _ _ Ht1)
      as (w2 & -> & Hd2 & Ht2 & Hp2).
    rewrite broadcast_eq. cbv beta iota.
    eexists. split; [reflexivity|]. split; [|split].
    + eapply delivered_app; [exact Hd1|].
      change [training_error (Some p) e]
        with ([] ++ [training_error (Some p) e]).
      eapply delivered_app; [exact Hd2|].
      apply delivered_broadcast.
    + by destruct w2.
    + destruct w2; simpl in *. congruence.
Qed.

End MonitorFacts.

Section MonitorExtras.

Lemma loop_result_lines (lines : list string) :
  Forall (fun raw => raw <> "") lines ->
  loop_result (map Return lines) = Return tt.
Proof.
  induction 1 as [|raw lines Hraw _ IH]; simpl; [reflexivity|].
  apply String.eqb_neq in Hraw. by rewrite Hraw.
Qed.

Lemma log_text_line_messages (p raw : string) :
  omap log_text (line_messages p raw) = [Str.strip raw].
Proof.
  unfold line_messages.
  destruct (Parser._parse_training_output (Str.strip raw)) as [[pr|]|];
    reflexivity.
Qed.

Lemma log_text_run_messages (p : string) (lines : list string) :
  Forall (fun raw => raw <> "") lines ->
  omap log_text (run_messages p (map Return lines)) = map Str.strip lines.
Proof.
  induction 1 as [|raw lines Hraw _ IH]; simpl; [reflexivity|].
  apply String.eqb_neq in Hraw. rewrite Hraw.
  by rewrite omap_app, log_text_line_messages, IH.
Qed.

Lemma run_progress_last (lines : list string) (raw : string) (pr : Progress) :
  Forall (fun raw => raw <> "") lines ->
  raw <> "" ->
  Parser._parse_training_output (Str.strip raw) = Return (Some pr) ->
  forall last, run_progress (map Return (lines ++ [raw])) last = pr.
Proof.
  intros Hlines Hraw Hpr.
  induction Hlines as [|raw0 lines Hraw0 _ IH]; intros last; simpl.
  - apply String.eqb_neq in Hraw. by rewrite Hraw, Hpr.
  - apply String.eqb_neq in Hraw0. rewrite Hraw0.
    destruct (Parser._parse_training_output (Str.strip raw0)) as [[pr0|]|];
      apply IH.
Qed.

End MonitorExtras.

(** X1. For a project that has a record, the monitoring task returns
    normally whatever the child prints and whatever reading it raises:
    when the output ends without a read error the child is reaped and the
    status becomes completed; when reading or decoding a line raises, the
    status becomes error, the child is left alone, and the exception goes
    no further. *)
Theorem monitor_training_never_raises (p : string) (pid : nat)
  (output : list (result string)) (w : World) (j : Job) :
  active_trainings w !! p = Some j ->
  fst (Monitor._monitor_training p pid output w) = Return tt
  /\ match loop_result output with
     | Return _ =>
         status <$> active_trainings
                      (snd (Monitor._monitor_training p pid output w)) !! p
           = Some completed
         /\ procs (snd (Monitor._monitor_training p pid output w))
            = delete pid (procs w)
     | Raise _ =>
         status <$> active_trainings
                      (snd (Monitor._monitor_training p pid output w)) !! p
           = Some error
         /\ procs (snd (Monitor._monitor_training p pid output w)) = procs w
     end.
Proof.
  intros Hj.
  destruct (monitor_training_spec p pid output w j Hj) as (w' & -> & _ & Ht & Hp).
  simpl. split; [reflexivity|].
  rewrite Ht, lookup_insert_eq, run_status_loop. simpl.
  destruct (loop_result output); by split.
Qed.

Lemma monitor_training_never_raises_witness :
  fst (Monitor._monitor_training "demo" 7 SampleRun.broken SampleRun.monitored)
    = Return tt
  /\ status <$> active_trainings
       (snd (Monitor._monitor_training "demo" 7 SampleRun.broken
               SampleRun.monitored)) !! "demo" = Some error
  /\ procs (snd (Monitor._monitor_training "demo" 7 SampleRun.broken
                   SampleRun.monitored)) = {[ 7%nat := Sample.child ]}.
Proof.
  apply (monitor_training_never_raises "demo" 7 SampleRun.broken
           SampleRun.monitored (Sample.job running)).
  reflexivity.
Defined.

(** X2. During a run of the monitoring task every registered open
    websocket receives the messages of the run in the order they were
    produced, after what it already held: for each line the progress
    message, if the line parses, then the log message, and at the end the
    completion or the error message. The log messages are the lines read,
    stripped, one for each line in order, whether or not a line parses. *)
Theorem monitor_training_messages (p : string) (pid : nat) (w : World) (j : Job) :
  active_trainings w !! p = Some j ->
  (forall (output : list (result string)) (c : nat) (ws : WebSocket),
     NoDup (active_connections w) ->
     c ∈ active_connections w ->
     sockets w !! c = Some ws ->
     sockets (snd (Monitor._monitor_training p pid output w)) !! c
     = Some (received (run_messages p output) ws))
  /\ (forall lines : list string,
        Forall (fun raw => raw <> "") lines ->
        omap log_text (run_messages p (map Return lines))
        = map Str.strip lines).
Proof.
  intros Hj. split.
  - intros output c ws Hnd Hin Hws.
    destruct (monitor_training_spec p pid output w j Hj)
      as (w' & -> & [_ Hs] & _ & _).
    simpl. rewrite Hs. by apply publish_received.
  - apply log_text_run_messages.
Qed.

Lemma monitor_training_messages_witness :
  sockets (snd (Monitor._monitor_training "demo" 7
                  (map Return SampleRun.lines) SampleRun.monitored)) !! 2%nat
  = Some {| ws_closed := false;
            ws_sent :=
              [training_log "demo" "loading dataset";
               training_progress "demo"
                 {| prog_iteration := 10; prog_loss := FFinite (1 # 2) |};
               training_log "demo" "iter: 10, loss: 0.5";
               training_complete "demo"] |}.
Proof.
  apply (proj1 (monitor_training_messages "demo" 7 SampleRun.monitored
                  (Sample.job running) eq_refl)
           (map Return SampleRun.lines) 2%nat
           {| ws_closed := false; ws_sent := [] |}).
  - apply (bool_decide_unpack _). vm_compute. exact I.
  - apply (bool_decide_unpack _). vm_compute. exact I.
  - vm_compute. reflexivity.
Defined.

(** X3. A run of the monitoring task changes, in the record of its
    project, the status, the iteration and the loss and nothing else: the
    process handle and the configuration stay, the iteration and loss
    are those of the last line that parsed (the former ones when none
    did), and the records of the other projects are untouched. When the
    output ends with a line that parses, the record shows that line. *)
Theorem monitor_training_record (p : string) (pid : nat)
  (output : list (result string)) (w : World) (j : Job) :
  active_trainings w !! p = Some j ->
  active_trainings (snd (Monitor._monitor_training p pid output w)) !! p
  = Some {| process := process j;
            status := run_status output;
            iteration := prog_iteration (run_progress output (current j));
            loss := prog_loss (run_progress output (current j));
            config := config j |}
  /\ (forall q, q <> p ->
        active_trainings (snd (Monitor._monitor_training p pid output w)) !! q
        = active_trainings w !! q)
  /\ (forall (lines : list string) (raw : string) (pr : Progress),
        output = map Return (lines ++ [raw]) ->
        Forall (fun raw => raw <> "") lines ->
        raw <> "" ->
        Parser._parse_training_output (Str.strip raw) = Return (Some pr) ->
        run_progress output (current j) = pr).
Proof.
  intros Hj.
  destruct (monitor_training_spec p pid output w j Hj) as (w' & -> & _ & Ht & _).
  simpl. rewrite Ht. split; [by rewrite lookup_insert_eq|]. split.
  - intros q Hq. by rewrite lookup_insert_ne.
  - intros lines raw pr -> Hl Hr Hp. by apply run_progress_last.
Qed.

Lemma monitor_training_record_witness :
  active_trainings
    (snd (Monitor._monitor_training "demo" 7 (map Return SampleRun.lines)
            SampleRun.monitored)) !! "demo"
  = Some {| process := 7; status := completed; iteration := 10;
            loss := FFinite (1 # 2); config := Sample.cfg |}.
Proof.
  apply (proj1 (monitor_training_record "demo" 7 (map Return SampleRun.lines)
                  SampleRun.monitored (Sample.job running) eq_refl)).
Defined.

(** ** The training manager: how its operations compose *)

Section TrainingCompositions.

Import TrainingManager.

Lemma resume_training_live (p : string) (w : World) (j : Job) (pr : Proc) :
  active_trainings w !! p = Some j ->
  procs w !! process j = Some pr ->
  resume_training p w
  = (Return tt,
     with_trainings (alter (fun j => with_status j running) p)
       (with_procs <[process j := OS.deliver SIGCONT pr]> w)).
Proof. intros Hj Hp. py_unfold. rewrite Hj, Hp. reflexivity. Qed.

Lemma pause_then_resume (p : string) (w : World) (j : Job) (pr : Proc) :
  active_trainings w !! p = Some j ->
  procs w !! process j = Some pr ->
  bind (pause_training p) (fun _ => resume_training p) w
  = (Return tt,
     with_trainings (fun m => <[p := with_status j running]> m)
       (with_procs (fun m => <[process j := OS.deliver SIGCONT pr]> m) w)).
Proof.
  intros Hj Hp. unfold bind. rewrite (pause_training_live p w j pr Hj Hp).
  rewrite (resume_training_live p _ (with_status j paused)
             (OS.deliver SIGSTOP pr)).
  - destruct w; unfold with_trainings, with_procs; simpl in *. f_equal. f_equal.
    + apply map_eq. intros q. destruct (decide (q = p)) as [->|Hq].
      * by rewrite !lookup_alter_eq, lookup_insert_eq, Hj.
      * by rewrite !lookup_alter_ne, lookup_insert_ne.
    + by rewrite insert_insert_eq.
  - destruct w; simpl in *. by rewrite lookup_alter_eq, Hj.
  - destruct w; simpl in *. by rewrite lookup_insert_eq.
Qed.

End TrainingCompositions.

(** X4. Pausing and then resuming a job whose child exists returns
    normally and leaves the job running with its child no longer
    suspended; the iteration, the loss, the process handle and the
    configuration of the record are as before, and so are the other
    records. For a job that was running with a child that was not
    suspended, the state after the two calls is the state before. *)
Theorem pause_resume_round_trip (p : string) (w : World) (j : Job) (pr : Proc) :
  active_trainings w !! p = Some j ->
  procs w !! process j = Some pr ->
  let run := bind (TrainingManager.pause_training p)
               (fun _ => TrainingManager.resume_training p) w in
  fst run = Return tt
  /\ active_trainings (snd run) !! p
     = Some {| process := process j; status := running;
               iteration := iteration j; loss := loss j;
               config := config j |}
  /\ (forall q, q <> p ->
        active_trainings (snd run) !! q = active_trainings w !! q)
  /\ procs (snd run) !! process j
     = Some {| suspended := false; term_delay := term_delay pr;
               kill_delay := kill_delay pr |}
  /\ (status j = running -> suspended pr = false -> snd run = w).
Proof.
  intros Hj Hp run. subst run. rewrite (pause_then_resume p w j pr Hj Hp).
  simpl. split; [reflexivity|].
  destruct w; simpl in *.
  split; [by rewrite lookup_insert_eq|].
  split; [intros q Hq; by rewrite lookup_insert_ne|].
  split; [by rewrite lookup_insert_eq|].
  intros Hs Hsusp. unfold with_trainings, with_procs; simpl. f_equal.
  - apply insert_id. rewrite Hj. f_equal. destruct j; simpl in *. by subst.
  - apply insert_id. rewrite Hp. f_equal. destruct pr; simpl in *. by subst.
Qed.

Lemma pause_resume_round_trip_witness :
  snd (bind (TrainingManager.pause_training "demo")
         (fun _ => TrainingManager.resume_training "demo")
         (Sample.with_job running Sample.child))
  = Sample.with_job running Sample.child.
Proof.
  apply (proj2 (proj2 (proj2 (proj2
           (pause_resume_round_trip "demo"
              (Sample.with_job running Sample.child)
              (Sample.job running) Sample.child eq_refl eq_refl))))); reflexivity.
Defined.

Section StartFacts.

Import TrainingManager.

(** Why [start_training] fails, and what it has published when it does. *)
Lemma start_training_failure_cases (project_path : string) (cfg : Config)
  (w w' : World) (e : Exn) :
  start_training project_path cfg w = (Raise e, w') ->
  ((cfg !! "scene_name" = None /\ e = KeyError)
   \/ (is_Some (cfg !! "scene_name") /\ writable w = false
       /\ e = write_error w)
   \/ (is_Some (cfg !! "scene_name") /\ writable w = true
       /\ launchable w = None /\ e = launch_error w))
  /\ delivered [training_error None e] w w'
  /\ procs w' = procs w.
Proof.
  py_unfold.
  destruct (cfg !! "scene_name") as [name|]; cbv beta iota.
  - destruct (writable w) eqn:Hw; cbv beta iota.
    + destruct (cfg !! "gpu_ids"); cbv beta iota;
        (destruct (launchable w) eqn:Hl; cbv beta iota;
           [unfold with_next_pid, with_procs, with_environ, with_files;
              simpl; rewrite ?Hl; simpl; discriminate|]);
        unfold with_environ, with_files; simpl; rewrite ?Hl; simpl;
        rewrite broadcast_eq; intros [= <- <-];
        (split; [right; right; repeat split; eauto; by destruct w|]);
        split; by destruct w.
    + rewrite broadcast_eq. intros [= <- <-].
      split; [right; left; repeat split; eauto; by destruct w|].
      split; by destruct w.
  - rewrite broadcast_eq. intros [= <- <-].
    split; [by left|]. split; by destruct w.
Qed.

End StartFacts.

(** X5. When [start_training] fails, the exception it raises to the
    caller is the one that stopped it: [KeyError] when the configuration
    has no scene name; otherwise, when the configuration file cannot be
    written, the exception that the write raised, whichever it is; and
    otherwise the exception that launching the training program raised.
    Before raising it has published one training-error message carrying
    that exception, which every registered open websocket receives after
    what it held; no child process has been created or removed. *)
Theorem start_training_failure_reported (project_path : string)
  (cfg : Config) (w w' : World) (e : Exn) :
  TrainingManager.start_training project_path cfg w = (Raise e, w') ->
  ((cfg !! "scene_name" = None /\ e = KeyError)
   \/ (is_Some (cfg !! "scene_name") /\ writable w = false
       /\ e = write_error w)
   \/ (is_Some (cfg !! "scene_name") /\ writable w = true
       /\ launchable w = None /\ e = launch_error w))
  /\ active_connections w' = active_connections w
  /\ procs w' = procs w
  /\ (NoDup (active_connections w) ->
      forall c ws, c ∈ active_connections w -> sockets w !! c = Some ws ->
        sockets w' !! c = Some (received [training_error None e] ws)).
Proof.
  intros H.
  destruct (start_training_failure_cases _ _ _ _ _ H) as (Hc & [Hconn Hs] & Hp).
  repeat split; try assumption.
  intros Hnd c ws Hin Hws. rewrite Hs. by apply publish_received.
Qed.

Lemma start_training_failure_reported_witness :
  sockets (snd (TrainingManager.start_training "projects/demo" Sample.cfg
                  SampleFailure.unlaunchable)) !! 2%nat
  = Some {| ws_closed := false;
            ws_sent := [training_error None FileNotFoundError] |}.
Proof.
  apply (proj2 (proj2 (proj2
           (start_training_failure_reported "projects/demo" Sample.cfg
              SampleFailure.unlaunchable
              (snd (TrainingManager.start_training "projects/demo" Sample.cfg
                      SampleFailure.unlaunchable))
              FileNotFoundError
              ltac:(vm_compute; reflexivity))))
           ltac:(apply (bool_decide_unpack _); vm_compute; exact I)
           2%nat {| ws_closed := false; ws_sent := [] |}).
  - apply (bool_decide_unpack _). vm_compute. exact I.
  - vm_compute. reflexivity.
Defined.

(** X6. After a start that succeeded, [get_status] for the project
    returns the record just stored: the new process handle, status
    running, iteration 0, loss 0.0 and the configuration given. For every
    other project it returns what it returned before the start. *)
Theorem start_then_get_status (project_path : string) (cfg : Config)
  (w : World) (name : string) (child : Proc) :
  cfg !! "scene_name" = Some name ->
  writable w = true ->
  launchable w = Some child ->
  let w' := snd (TrainingManager.start_training project_path cfg w) in
  TrainingManager.get_status name w'
  = (Return (job_record {| process := next_pid w; status := running;
                           iteration := 0; loss := FFinite 0;
                           config := cfg |}), w')
  /\ forall q, q <> name ->
       fst (TrainingManager.get_status q w')
       = fst (TrainingManager.get_status q w).
Proof.
  intros Hn Hw Hl.
  destruct (start_training_success project_path cfg w name child Hn Hw Hl)
    as (w1 & -> & Ht & _).
  simpl. py_unfold.
  rewrite Ht, lookup_insert_eq. split; [reflexivity|].
  intros q Hq. rewrite lookup_insert_ne by congruence.
  by destruct (active_trainings w !! q).
Qed.

Lemma start_then_get_status_witness :
  fst (TrainingManager.get_status "demo"
         (snd (TrainingManager.start_training "projects/demo" Sample.cfg
                 Sample.idle)))
  = Return (job_record {| process := 7; status := running; iteration := 0;
                          loss := FFinite 0; config := Sample.cfg |}).
Proof.
  apply (f_equal fst
           (proj1 (start_then_get_status "projects/demo" Sample.cfg
                     Sample.idle "demo" Sample.child eq_refl eq_refl eq_refl))).
Defined.

(** X7. Starting a project that already has a job whose child is alive
    leaves that child running with no record pointing to it: the record
    now holds the new child, so a stop that follows returns normally,
    reaps the new child and marks the job stopped, while the first child
    is still there, as it was. *)
Theorem restart_orphans_first_child (project_path : string) (cfg : Config)
  (w : World) (name : string) (child : Proc) (j : Job) (pr : Proc) :
  cfg !! "scene_name" = Some name ->
  writable w = true ->
  launchable w = Some child ->
  active_trainings w !! name = Some j ->
  procs w !! process j = Some pr ->
  procs w !! next_pid w = None ->
  let w1 := snd (TrainingManager.start_training project_path cfg w) in
  let w2 := snd (TrainingManager.stop_training name w1) in
  procs w1 !! process j = Some pr
  /\ process <$> active_trainings w1 !! name = Some (next_pid w)
  /\ fst (TrainingManager.stop_training name w1) = Return tt
  /\ status <$> active_trainings w2 !! name = Some stopped
  /\ procs w2 !! next_pid w = None
  /\ procs w2 !! process j = Some pr.
Proof.
  intros Hn Hw Hl Hj Hp Hfresh.
  assert (Hne : next_pid w <> process j) by congruence.
  destruct (start_training_success project_path cfg w name child Hn Hw Hl)
    as (w1 & -> & Ht & Hprocs & _).
  simpl.
  assert (Hj1 : active_trainings w1 !! name
                = Some (TrainingManager.new_job (next_pid w) cfg))
    by (rewrite Ht; apply lookup_insert_eq).
  assert (Hp1 : procs w1 !! process (TrainingManager.new_job (next_pid w) cfg)
                = Some child)
    by (rewrite Hprocs; apply lookup_insert_eq).
  rewrite (stop_training_live name w1 _ child Hj1 Hp1). simpl.
  split; [by rewrite Hprocs, lookup_insert_ne|].
  split; [by rewrite Hj1|].
  split; [reflexivity|].
  destruct w1; simpl in *.
  split; [by rewrite lookup_alter_eq, Hj1|].
  split; [by rewrite lookup_delete_eq|].
  by rewrite lookup_delete_ne, Hprocs, lookup_insert_ne.
Qed.

Lemma restart_orphans_first_child_witness :
  procs (snd (TrainingManager.stop_training "demo"
                (snd (TrainingManager.start_training "projects/demo"
                        Sample.cfg (Sample.with_job running Sample.child)))))
    !! 7%nat = Some Sample.child.
Proof.
  apply (proj2 (proj2 (proj2 (proj2 (proj2
           (restart_orphans_first_child "projects/demo" Sample.cfg
              (Sample.with_job running Sample.child) "demo" Sample.child
              (Sample.job running) Sample.child
              eq_refl eq_refl eq_refl eq_refl eq_refl eq_refl)))))).
Defined.

(** X8. Once the monitoring task of a job has seen the output end and
    reaped the child, the job is completed. From then on a pause and a
    resume raise [ProcessLookupError] and leave the state, and so the
    status completed, as it is. A stop does the same once the event loop
    has closed the handle of the reaped child; until then it returns
    normally, changes nothing but the status of the record, and that
    status is overwritten: the completed job becomes stopped. *)
Theorem control_after_completion (p : string) (output : list (result string))
  (w : World) (j : Job) :
  active_trainings w !! p = Some j ->
  loop_result output = Return tt ->
  let w' := snd (Monitor._monitor_training p (process j) output w) in
  status <$> active_trainings w' !! p = Some completed
  /\ TrainingManager.pause_training p w' = (Raise ProcessLookupError, w')
  /\ TrainingManager.resume_training p w' = (Raise ProcessLookupError, w')
  /\ TrainingManager.stop_training p (OS.finalise (process j) w')
     = (Raise ProcessLookupError, OS.finalise (process j) w')
  /\ (process j ∈ finalised w' ->
      TrainingManager.stop_training p w' = (Raise ProcessLookupError, w'))
  /\ (process j ∉ finalised w' ->
      TrainingManager.stop_training p w'
      = (Return tt,
         with_trainings (alter (fun j => with_status j stopped) p) w')
      /\ status <$> active_trainings
                      (snd (TrainingManager.stop_training p w')) !! p
         = Some stopped).
Proof.
  intros Hj Hloop.
  destruct (monitor_training_spec p (process j) output w j Hj)
    as (w' & -> & _ & Ht & Hp).
  simpl. rewrite Hloop in Hp. rewrite run_status_loop, Hloop in Ht.
  set (j' := with_status (set_progress j (run_progress output (current j)))
               completed) in *.
  assert (Hj' : active_trainings w' !! p = Some j')
    by (rewrite Ht; apply lookup_insert_eq).
  assert (Hgone : procs w' !! process j' = None)
    by (rewrite Hp; apply lookup_delete_eq).
  split; [by rewrite Hj'|].
  split; [by apply pause_training_gone with j'|].
  split; [py_unfold; by rewrite Hj', Hgone|].
  split; [|split].
  - exact (stop_training_finalised p w' j' Hj' Hgone).
  - intros Hf. by apply stop_training_gone with j'.
  - intros Hf.
    assert (Hstop := stop_training_reaped p w' j' Hj' Hgone Hf).
    split; [exact Hstop|].
    rewrite Hstop. destruct w'; simpl in *.
    by rewrite lookup_alter_eq, Hj'.
Qed.

Lemma control_after_completion_witness :
  TrainingManager.stop_training "demo"
    (snd (Monitor._monitor_training "demo" 7 (map Return SampleRun.lines)
            SampleRun.monitored))
  = (Return tt,
     with_trainings (alter (fun j => with_status j stopped) "demo")
       (snd (Monitor._monitor_training "demo" 7 (map Return SampleRun.lines)
               SampleRun.monitored))).
Proof.
  apply (proj2 (proj2 (proj2 (proj2 (proj2
           (control_after_completion "demo" (map Return SampleRun.lines)
              SampleRun.monitored (Sample.job running) eq_refl eq_refl)))))).
  apply (bool_decide_unpack _). vm_compute. exact I.
Defined.

(** ** The reconstruction pipeline: success, the dense extension, the
    quality table *)

(** X9. A run of [process] that returns normally has started all four
    commands, in the declared order, and each of them exited with status
    0; what it returns has the status "success", the output path given,
    in the normalised form that [Path] prints, and the statistics read
    from the file system the commands left. *)
Theorem process_success_means_all_stages
  (exec : list string -> FileSystem -> Outcome)
  (colmap_path images_path output_path camera_model quality : string)
  (f : FileSystem) (res : ProcessResult) :
  let run := COLMAPProcessor.process exec colmap_path images_path output_path
               camera_model quality {| fs := f; started := [] |} in
  fst run = Return res ->
  map COLMAPProcessor.stage_of (started (snd run)) = COLMAPProcessor.stage_names
  /\ Forall (fun r => snd r = 0) (started (snd run))
  /\ res_status res = "success"
  /\ res_output_path res = normalise output_path
  /\ COLMAPProcessor._get_statistics (fs (snd run))
       (path_join (normalise output_path) "sparse")
     = Return (res_statistics res).
Proof.
  colmap_unfold.
  repeat next_command exec; try discriminate.
  all: match goal with
       | |- context [COLMAPProcessor._get_statistics ?f ?p] =>
           let H := fresh "Hstats" in
           destruct (COLMAPProcessor._get_statistics f p) eqn:H;
           cbv beta iota zeta delta [fst snd fs started]
       end; try discriminate.
  all: intros [= <-]; simpl; repeat split; repeat constructor; congruence.
Qed.

Lemma process_success_means_all_stages_witness :
  map COLMAPProcessor.stage_of
    (started (snd (COLMAPProcessor.process (SamplePipeline.exec_failing "")
                     "colmap" "project/images" "out" "PINHOLE" "high"
                     {| fs := SamplePipeline.reconstructed; started := [] |})))
  = COLMAPProcessor.stage_names.
Proof.
  assert (H : exists res,
            fst (COLMAPProcessor.process (SamplePipeline.exec_failing "")
                   "colmap" "project/images" "out" "PINHOLE" "high"
                   {| fs := SamplePipeline.reconstructed; started := [] |})
            = Return res)
    by (eexists; vm_compute; reflexivity).
  destruct H as [res H].
  exact (proj1 (process_success_means_all_stages
                  (SamplePipeline.exec_failing "") "colmap" "project/images"
                  "out" "PINHOLE" "high" SamplePipeline.reconstructed res H)).
Defined.

(** X10. The dense reconstruction starts the stereo matching and then,
    only when the stereo matching exited with status 0 and its output
    was decoded, the fusion. When it returns normally both were started,
    in that order, and both exited with status 0. When both were started
    and exited with status 0, it returns normally unless the output of
    the fusion is not UTF-8, in which case the decoding error is raised;
    so it returns normally whenever the commands write UTF-8. A non-zero
    exit status of either ends it with an error, the [RuntimeError] that
    carries the command's stderr or the decoding error of that stderr,
    and nothing is started after. *)
Theorem dense_reconstruction_order
  (exec : list string -> FileSystem -> Outcome)
  (colmap_path dense_path : string) (f : FileSystem) :
  let run := Dense.dense_reconstruction exec colmap_path dense_path
               {| fs := f; started := [] |} in
  map COLMAPProcessor.stage_of (started (snd run))
    `prefix_of` ["patch_match_stereo"; "stereo_fusion"]
  /\ (fst run = Return tt ->
      map COLMAPProcessor.stage_of (started (snd run))
        = ["patch_match_stereo"; "stereo_fusion"]
      /\ Forall (fun r => snd r = 0) (started (snd run)))
  /\ (map COLMAPProcessor.stage_of (started (snd run))
        = ["patch_match_stereo"; "stereo_fusion"] ->
      Forall (fun r => snd r = 0) (started (snd run)) ->
      (fst run = Return tt \/ fst run = Raise UnicodeDecodeError)
      /\ ((forall cmd f0 rc out err f1,
             exec cmd f0 = exited rc out err f1 -> out <> not_utf8) ->
          fst run = Return tt))
  /\ (forall (i : nat) (r : list string * Z),
        started (snd run) !! i = Some r -> snd r <> 0 ->
        length (started (snd run)) = S i
        /\ ((exists msg, fst run = Raise (RuntimeError msg))
            \/ fst run = Raise UnicodeDecodeError)).
Proof.
  cbv beta iota zeta delta
    [Dense.dense_reconstruction COLMAPProcessor._run_command bind ret
     fs started fst snd].
  repeat
    (match goal with
     | |- context [decode ?c] => destruct c as [?text|]; cbn [decode]
     | |- context [exec ?c ?f] =>
         let rc := fresh "rc" in
         let E := fresh "Hexec" in
         destruct (exec c f) as [?e|rc ?out ?err ?f] eqn:E;
         [|destruct (Z.eqb_spec rc 0); [subst rc|]]
     end; cbv beta iota zeta delta [fst snd fs started]).
  all: split; [simpl; eexists; reflexivity|].
  all: split;
    [first [discriminate
           |intros _; simpl; split; [reflexivity|repeat constructor]]|].
  all: split;
    [intros Hnames Hall; simpl in Hnames, Hall;
     first
       [discriminate
       |repeat match goal with
               | H : Forall _ (_ :: _) |- _ => inversion H; clear H; subst
               end; simpl in *; congruence
       |split; [by left|reflexivity]
       |split; [by right|];
        intros Hutf8;
        match goal with
        | H : _ = exited _ not_utf8 _ _ |- _ =>
            by destruct (Hutf8 _ _ _ _ _ _ H)
        end]
    |].
  all: intros i run Hi Hrc;
    repeat (destruct i as [|i]; simpl in Hi; simplify_eq/=; eauto).
Qed.

Lemma dense_reconstruction_order_witness :
  length (started (snd (Dense.dense_reconstruction
                          (SamplePipeline.exec_failing "patch_match_stereo")
                          "colmap" "out/dense"
                          {| fs := SamplePipeline.reconstructed;
                             started := [] |}))) = 1%nat
  /\ ((exists msg,
         fst (Dense.dense_reconstruction
                (SamplePipeline.exec_failing "patch_match_stereo")
                "colmap" "out/dense"
                {| fs := SamplePipeline.reconstructed; started := [] |})
         = Raise (RuntimeError msg))
      \/ fst (Dense.dense_reconstruction
                (SamplePipeline.exec_failing "patch_match_stereo")
                "colmap" "out/dense"
                {| fs := SamplePipeline.reconstructed; started := [] |})
         = Raise UnicodeDecodeError).
Proof.
  apply (proj2 (proj2 (proj2 (dense_reconstruction_order
                                (SamplePipeline.exec_failing "patch_match_stereo")
                                "colmap" "out/dense"
                                SamplePipeline.reconstructed)))
           0%nat (Dense.stereo_cmd "colmap" "out/dense", 1)).
  - vm_compute. reflexivity.
  - vm_compute. discriminate.
Defined.

(** X11. The matching stage takes its limit on the number of matches from
    the quality: 16384 for "medium", 8192 for "low", and 32768 for "high"
    and for every other text, so an unknown quality is treated as high.
    The limit is the last word of the matcher's command, in decimal. *)
Theorem quality_falls_back_to_high (colmap_path database_path quality : string) :
  COLMAPProcessor.max_num_matches "medium" = 16384
  /\ COLMAPProcessor.max_num_matches "low" = 8192
  /\ (quality <> "medium" -> quality <> "low" ->
      COLMAPProcessor.max_num_matches quality = 32768)
  /\ last (COLMAPProcessor.feature_matching_cmd colmap_path database_path quality)
     = Some (pretty (COLMAPProcessor.max_num_matches quality)).
Proof.
  split; [reflexivity|]. split; [reflexivity|]. split; [|reflexivity].
  intros Hm Hl. unfold COLMAPProcessor.max_num_matches,
    COLMAPProcessor.quality_params.
  destruct (decide (quality = "high")) as [->|Hh]; [reflexivity|].
  rewrite !lookup_insert_ne by congruence.
  by rewrite lookup_singleton_ne by congruence.
Qed.

Lemma quality_falls_back_to_high_witness :
  COLMAPProcessor.max_num_matches "ultra" = 32768.
Proof.
  apply (proj1 (proj2 (proj2
           (quality_falls_back_to_high "colmap" "out/database.db" "ultra"))));
    discriminate.
Defined.

(** ** The parser and the statistics: edges *)

Section ParserEdges.

Import Parser.

Lemma prefix_comma (c : ascii) (s : string) :
  String.prefix "," (String c s) = Ascii.eqb c ",".
Proof.
  change (String.prefix "," (String c s))
    with (if ascii_dec "," c then String.prefix "" s else false).
  destruct (ascii_dec "," c) as [<-|Hne].
  - by destruct s.
  - symmetry. apply Ascii.eqb_neq. congruence.
Qed.

(** A line with no comma is a single part. *)
Lemma split_no_comma (s : string) :
  Str.contains "," s = false -> Str.split "," s = [s].
Proof.
  induction s as [|c s IH]; [reflexivity|].
  cbn [Str.contains Str.split]. rewrite prefix_comma.
  destruct (Ascii.eqb c ","); [discriminate|].
  intros H. by rewrite (IH H).
Qed.

(** One part assigns at most one of the two fields. *)
Lemma parse_part_one_field (part : string) :
  match parse_part (None, None) part with
  | Return (Some _, Some _) => False
  | _ => True
  end.
Proof.
  unfold parse_part.
  destruct (Str.contains "iter" (Str.strip part)).
  - destruct (field (Str.strip part)) as [f|]; simpl; [|exact I].
    by destruct (Str.py_int f).
  - destruct (Str.contains "loss" (Str.strip part)); [|exact I].
    destruct (field (Str.strip part)) as [f|]; simpl; [|exact I].
    by destruct (Float.py_float f).
Qed.

End ParserEdges.

(** X12. A line without a comma never gives a progress record, whatever
    else it contains: the iteration and the loss are read from different
    comma-separated parts of the line, so a line such as
    "iter: 5 loss: 0.1" is passed on as a log line only. *)
Theorem parse_needs_comma (line : string) :
  Str.contains "," line = false ->
  Parser._parse_training_output line = Return None.
Proof.
  intros H. unfold Parser._parse_training_output, Parser.parse_body.
  destruct (Str.contains "iter" line && Str.contains "loss" line);
    [|reflexivity].
  rewrite (split_no_comma line H). simpl.
  pose proof (parse_part_one_field line) as Hone.
  destruct (Parser.parse_part (None, None) line) as [[[i|] [l|]]|e];
    simpl; try reflexivity. contradiction.
Qed.

Lemma parse_needs_comma_witness :
  Parser._parse_training_output "iter: 5 loss: 0.1" = Return None.
Proof. apply (parse_needs_comma "iter: 5 loss: 0.1"). reflexivity. Defined.

(** X13. The statistics are all or nothing once the reconstruction folder
    is found: when one of the three files exists but cannot be read as
    text, the result is empty, also for the files that could be read. *)
Theorem statistics_all_or_nothing (f : FileSystem) (sparse_path r : string)
  (name : string) :
  COLMAPProcessor.reconstruction_folder f sparse_path = Return r ->
  name ∈ ["cameras.txt"; "images.txt"; "points3D.txt"] ->
  FSys.exists_ f (path_join r name) = true ->
  ~ absent_or_text f (path_join r name) ->
  COLMAPProcessor._get_statistics f sparse_path = Return ∅.
Proof.
  intros Hr Hname Hex Hbad.
  assert (Hraise : forall measure,
            exists e, COLMAPProcessor.count_lines f (path_join r name) measure
                      = Raise e).
  { intros measure. unfold COLMAPProcessor.count_lines. rewrite Hex.
    unfold absent_or_text, FSys.read_lines, FSys.exists_ in *.
    destruct (f !! path_join r name) as [[| |]|]; simpl; eauto;
      try discriminate. by destruct Hbad. }
  unfold COLMAPProcessor._get_statistics, COLMAPProcessor.statistics_body.
  rewrite Hr. simpl.
  repeat (apply elem_of_cons in Hname as [->|Hname]);
    [| | |by apply elem_of_nil in Hname].
  - destruct (Hraise COLMAPProcessor.len) as [e ->]. reflexivity.
  - destruct (COLMAPProcessor.count_lines f (path_join r "cameras.txt") _);
      simpl; [|reflexivity].
    destruct (Hraise (fun ls => COLMAPProcessor.len ls / 2)) as [e ->].
    reflexivity.
  - destruct (COLMAPProcessor.count_lines f (path_join r "cameras.txt") _);
      simpl; [|reflexivity].
    destruct (COLMAPProcessor.count_lines f (path_join r "images.txt") _);
      simpl; [|reflexivity].
    destruct (Hraise COLMAPProcessor.len) as [e ->]. reflexivity.
Qed.

Lemma statistics_all_or_nothing_witness :
  COLMAPProcessor._get_statistics SampleDamaged.unreadable_points "out/sparse"
  = Return ∅.
Proof.
  apply (statistics_all_or_nothing SampleDamaged.unreadable_points
           "out/sparse" "out/sparse/0" "points3D.txt").
  - vm_compute. reflexivity.
  - apply (bool_decide_unpack _). vm_compute. exact I.
  - vm_compute. reflexivity.
  - vm_compute. exact (fun H => H).
Defined.

(** ** Checkpoints *)

Section CheckpointFacts.

Import Checkpoints.

Lemma leb_cons (a b : ascii) (s t : string) :
  String.leb (String a s) (String b t)
  = match N.compare (N_of_ascii a) (N_of_ascii b) with
    | Lt => true
    | Eq => String.leb s t
    | Gt => false
    end.
Proof.
  unfold String.leb. simpl. unfold Ascii.compare.
  by destruct (N.compare (N_of_ascii a) (N_of_ascii b)).
Qed.

Lemma string_le_trans (s : string) :
  forall t u, string_le s t -> string_le t u -> string_le s u.
Proof.
  unfold string_le.
  induction s as [|a s IH]; intros [|b t] [|c u]; try done.
  rewrite !leb_cons.
  destruct (N.compare_spec (N_of_ascii a) (N_of_ascii b));
    destruct (N.compare_spec (N_of_ascii b) (N_of_ascii c));
    destruct (N.compare_spec (N_of_ascii a) (N_of_ascii c));
    try done; try lia.
  apply IH.
Qed.

#[local] Instance string_le_transitive : Transitive string_le.
Proof. intros s t u. apply string_le_trans. Qed.

#[local] Instance string_le_total : Total string_le.
Proof. intros s t. apply String.leb_total. Qed.

Lemma sorted_strongly (names : list string) :
  StronglySorted string_le (sorted names).
Proof. apply (StronglySorted_merge_sort string_le). Qed.

Lemma sorted_permutation (names : list string) : sorted names ≡ₚ names.
Proof. apply (merge_sort_Permutation string_le). Qed.

(** The last element of a sorted list is a greatest one. *)
Lemma last_greatest (l : list string) (x : string) :
  StronglySorted string_le l -> last l = Some x ->
  forall y, y ∈ l -> string_le y x.
Proof.
  induction 1 as [|z l Hl IH Hz]; intros Hlast y Hy; [by apply elem_of_nil in Hy|].
  destruct l as [|z' l'].
  - simpl in Hlast. injection Hlast as <-.
    apply list_elem_of_singleton in Hy as ->.
    destruct (string_le_total z z); assumption.
  - change (last (z :: z' :: l')) with (last (z' :: l')) in Hlast.
    apply elem_of_cons in Hy as [->|Hy]; [|by apply IH].
    assert (Hx : x ∈ z' :: l').
    { apply last_Some in Hlast as [l'' ->]. set_solver. }
    rewrite Forall_forall in Hz. by apply Hz.
Qed.

Lemma glob_pth_elem (f : FileSystem) (dir name : string) :
  name ∈ glob_pth f dir <-> name ∈ entries f dir /\ is_pth name = true.
Proof.
  unfold glob_pth. rewrite !list_elem_of_In. apply filter_In.
Qed.

End CheckpointFacts.

(** X14. [list_checkpoints] returns the names of the entries of the
    project's checkpoints folder that end with ".pth", each as often as it
    is listed, in ascending lexicographic order, and nothing else; when
    the folder does not exist it returns the empty list. *)
Theorem list_checkpoints_sorted (f : FileSystem) (project_path : string) :
  let folder := path_join project_path "checkpoints" in
  StronglySorted Checkpoints.string_le
    (Checkpoints.list_checkpoints f project_path)
  /\ Checkpoints.list_checkpoints f project_path
     ≡ₚ List.filter Checkpoints.is_pth (Checkpoints.entries f folder)
  /\ (forall name,
        name ∈ Checkpoints.list_checkpoints f project_path
        <-> name ∈ Checkpoints.entries f folder
            /\ Checkpoints.is_pth name = true)
  /\ (FSys.exists_ f folder = false ->
      Checkpoints.list_checkpoints f project_path = []).
Proof.
  intros folder.
  assert (Hperm : Checkpoints.list_checkpoints f project_path
                  ≡ₚ Checkpoints.glob_pth f folder).
  { unfold Checkpoints.list_checkpoints. fold folder.
    unfold FSys.exists_, Checkpoints.glob_pth, Checkpoints.entries.
    destruct (f !! folder); [apply sorted_permutation|reflexivity]. }
  split; [|split; [exact Hperm|split]].
  - unfold Checkpoints.list_checkpoints.
    destruct (FSys.exists_ f _); [apply sorted_strongly|constructor].
  - intros name. rewrite Hperm. apply glob_pth_elem.
  - intros H. unfold Checkpoints.list_checkpoints. fold folder. by rewrite H.
Qed.

Lemma list_checkpoints_sorted_witness :
  Checkpoints.list_checkpoints ∅ "project" = [].
Proof.
  apply (proj2 (proj2 (proj2 (list_checkpoints_sorted ∅ "project")))).
  reflexivity.
Defined.

(** X15. Asked for the "latest" checkpoint, [_get_checkpoint_path]
    returns nothing exactly when the checkpoints folder lists no name
    ending with ".pth"; otherwise it returns the path of such a name that
    is greatest in lexicographic order among them (which is not the
    numeric order of the iterations). Asked for any other checkpoint, it
    returns the path of that name with ".pth" appended when that path
    exists, and nothing otherwise. *)
Theorem get_checkpoint_path_latest (f : FileSystem) (project_path : string) :
  let folder := path_join project_path "checkpoints" in
  (Checkpoints._get_checkpoint_path f project_path "latest" = None
   <-> Checkpoints.glob_pth f folder = [])
  /\ (forall path,
        Checkpoints._get_checkpoint_path f project_path "latest" = Some path ->
        exists name,
          path = path_join folder name
          /\ name ∈ Checkpoints.entries f folder
          /\ Checkpoints.is_pth name = true
          /\ forall other,
               other ∈ Checkpoints.entries f folder ->
               Checkpoints.is_pth other = true ->
               Checkpoints.string_le other name)
  /\ (forall checkpoint,
        checkpoint <> "latest" ->
        Checkpoints._get_checkpoint_path f project_path checkpoint
        = if FSys.exists_ f (path_join folder (checkpoint +:+ ".pth"))
          then Some (path_join folder (checkpoint +:+ ".pth"))
          else None).
Proof.
  intros folder. unfold Checkpoints._get_checkpoint_path. fold folder.
  split; [|split].
  - simpl. destruct (last (Checkpoints.sorted (Checkpoints.glob_pth f folder)))
      as [name|] eqn:Hlast.
    + split; [discriminate|]. intros Hnil. rewrite Hnil in Hlast.
      discriminate.
    + split; [intros _|reflexivity].
      apply last_None in Hlast.
      apply Permutation_nil_r. rewrite <- Hlast.
      symmetry. apply sorted_permutation.
  - intros path. simpl.
    destruct (last (Checkpoints.sorted (Checkpoints.glob_pth f folder)))
      as [name|] eqn:Hlast; [|discriminate].
    intros [= <-]. exists name. split; [reflexivity|].
    assert (Hin : name ∈ Checkpoints.glob_pth f folder).
    { rewrite <- (sorted_permutation (Checkpoints.glob_pth f folder)).
      apply last_Some in Hlast as [l ->]. set_solver. }
    apply glob_pth_elem in Hin as [Hin Hpth].
    split; [assumption|]. split; [assumption|].
    intros other Ho Hop.
    apply (last_greatest _ _ (sorted_strongly _) Hlast).
    rewrite (sorted_permutation (Checkpoints.glob_pth f folder)).
    by apply glob_pth_elem.
  - intros checkpoint Hne. apply String.eqb_neq in Hne. by rewrite Hne.
Qed.

Lemma get_checkpoint_path_latest_witness :
  exists name,
    "project/checkpoints/epoch_9000.pth" = path_join "project/checkpoints" name
    /\ name ∈ Checkpoints.entries sample_checkpoints "project/checkpoints"
    /\ Checkpoints.is_pth name = true
    /\ forall other,
         other ∈ Checkpoints.entries sample_checkpoints "project/checkpoints" ->
         Checkpoints.is_pth other = true ->
         Checkpoints.string_le other name.
Proof.
  apply (proj1 (proj2 (get_checkpoint_path_latest sample_checkpoints "project"))
           "project/checkpoints/epoch_9000.pth").
  vm_compute. reflexivity.
Defined.

(** ** Subscribers and the control endpoints *)

Section SubscriberFacts.

Import ConnectionManager.

Lemma list_remove_absent (x : nat) (l : list nat) :
  x ∉ l -> list_remove x l = None.
Proof.
  induction l as [|y l IH]; intros Hx; simpl; [reflexivity|].
  apply not_elem_of_cons in Hx as [Hne Hx].
  apply Nat.eqb_neq in Hne. rewrite Hne. by rewrite IH.
Qed.

Lemma list_remove_present (x : nat) (l : list nat) :
  x ∈ l -> NoDup l ->
  exists l', list_remove x l = Some l'
    /\ (x ∉ l')
    /\ NoDup l'
    /\ forall y, y <> x -> (y ∈ l' <-> y ∈ l).
Proof.
  induction l as [|z l IH]; intros Hx Hnd; [by apply elem_of_nil in Hx|].
  apply NoDup_cons in Hnd as [Hz Hnd]. simpl.
  destruct (Nat.eqb_spec x z) as [->|Hne].
  - exists l. repeat split; try assumption.
    + intros Hy. by apply elem_of_cons; right.
    + intros Hy. apply elem_of_cons in Hy as [?|?]; [congruence|assumption].
  - apply elem_of_cons in Hx as [?|Hx]; [congruence|].
    destruct (IH Hx Hnd) as (l' & -> & Hx' & Hnd' & Hiff).
    exists (z :: l'). split; [reflexivity|]. split; [|split].
    + apply not_elem_of_cons. by split.
    + apply NoDup_cons. split; [|assumption].
      intros Hz'. apply Hz. by apply (Hiff z).
    + intros y Hy. rewrite !elem_of_cons. by rewrite (Hiff y Hy).
Qed.

Lemma list_remove_snoc (x : nat) (l : list nat) :
  x ∉ l -> list_remove x (l ++ [x]) = Some l.
Proof.
  induction l as [|y l IH]; intros Hx; simpl.
  - by rewrite Nat.eqb_refl.
  - apply not_elem_of_cons in Hx as [Hne Hx].
    apply Nat.eqb_neq in Hne. rewrite Hne. by rewrite IH.
Qed.

End SubscriberFacts.

(** X16. [disconnect] of a websocket that is not registered raises
    [ValueError] and changes nothing. [disconnect] of a registered one
    removes it and only it from the subscriber list; a second
    [disconnect] of it then raises, and a broadcast that follows leaves
    that websocket as it was. Registering a websocket that was not
    registered and disconnecting it gives back the state before. *)
Theorem disconnect_unregisters (c : nat) (w : World) :
  (c ∉ active_connections w ->
   ConnectionManager.disconnect c w = (Raise ValueError, w))
  /\ (c ∈ active_connections w ->
      NoDup (active_connections w) ->
      exists w',
        ConnectionManager.disconnect c w = (Return tt, w')
        /\ (c ∉ active_connections w')
        /\ (forall y, y <> c ->
              (y ∈ active_connections w' <-> y ∈ active_connections w))
        /\ ConnectionManager.disconnect c w' = (Raise ValueError, w')
        /\ forall m,
             sockets (snd (ConnectionManager.broadcast m w')) !! c
             = sockets w !! c)
  /\ (c ∉ active_connections w ->
      snd (bind (ConnectionManager.connect c)
             (fun _ => ConnectionManager.disconnect c) w) = w).
Proof.
  assert (Habsent : forall w0 : World, c ∉ active_connections w0 ->
            ConnectionManager.disconnect c w0 = (Raise ValueError, w0)).
  { intros w0 H. unfold ConnectionManager.disconnect, bind, get.
    by rewrite (list_remove_absent c _ H). }
  split; [apply Habsent|]. split.
  - intros Hin Hnd.
    destruct (list_remove_present c _ Hin Hnd) as (l' & Hl & Hc & _ & Hiff).
    exists (with_connections (fun _ => l') w).
    split; [|split; [|split; [|split]]].
    + unfold ConnectionManager.disconnect, bind, get. by rewrite Hl.
    + by destruct w.
    + destruct w; exact Hiff.
    + apply Habsent. by destruct w.
    + intros m. rewrite broadcast_eq. destruct w; simpl in *.
      by apply foldl_deliver_to_absent.
  - intros H. unfold bind, ConnectionManager.connect, modify,
      ConnectionManager.disconnect, get.
    cbv beta iota.
    assert (Hl : ConnectionManager.list_remove c (active_connections
                   (with_connections (fun l => l ++ [c]) w))
                 = Some (active_connections w))
      by (destruct w; simpl in *; by apply list_remove_snoc).
    unfold bind. rewrite Hl. by destruct w.
Qed.

Lemma disconnect_unregisters_witness :
  exists w',
    ConnectionManager.disconnect 1 Sample.two_subscribers = (Return tt, w')
    /\ (1%nat ∉ active_connections w')
    /\ (forall y, y <> 1%nat ->
          (y ∈ active_connections w'
           <-> y ∈ active_connections Sample.two_subscribers))
    /\ ConnectionManager.disconnect 1 w' = (Raise ValueError, w')
    /\ forall m,
         sockets (snd (ConnectionManager.broadcast m w')) !! 1%nat
         = sockets Sample.two_subscribers !! 1%nat.
Proof.
  apply (proj1 (proj2 (disconnect_unregisters 1 Sample.two_subscribers))).
  - apply (bool_decide_unpack _). vm_compute. exact I.
  - apply (bool_decide_unpack _). vm_compute. exact I.
Defined.

(** X17. Each of the three control endpoints answers with its fixed
    status ("paused", "resumed", "stopped") when the project has no
    record, also for a project that was never started, and when the
    project has a record whose child still exists. When the project has
    a record whose child is gone, the pause and the resume endpoints
    answer with the HTTP status 500 carrying [ProcessLookupError]; the
    stop endpoint does so only once the handle of the reaped child has
    been closed, and until then it answers "stopped". *)
Theorem control_endpoints_answer (p : string) (w : World) :
  fst (Server.pause_training p w)
    = (if controllable p w then Server.ok "paused"
       else Server.http_error 500 ProcessLookupError)
  /\ fst (Server.resume_training p w)
     = (if controllable p w then Server.ok "resumed"
        else Server.http_error 500 ProcessLookupError)
  /\ fst (Server.stop_training p w)
     = (if stoppable p w then Server.ok "stopped"
        else Server.http_error 500 ProcessLookupError).
Proof.
  unfold Server.pause_training, Server.resume_training, Server.stop_training,
    Server.respond, controllable, stoppable.
  destruct (active_trainings w !! p) as [j|] eqn:Hj.
  - destruct (procs w !! process j) as [pr|] eqn:Hp.
    + rewrite (pause_training_live p w j pr Hj Hp),
        (resume_training_live p w j pr Hj Hp),
        (stop_training_live p w j pr Hj Hp). by repeat split.
    + rewrite (pause_training_gone p w j Hj Hp).
      split; [reflexivity|]. split; [py_unfold; by rewrite Hj, Hp|].
      destruct (decide (process j ∈ finalised w)) as [Hf|Hf].
      * rewrite (stop_training_gone p w j Hj Hp Hf).
        by rewrite (bool_decide_eq_true_2 _ Hf).
      * rewrite (stop_training_reaped p w j Hj Hp Hf).
        by rewrite (bool_decide_eq_false_2 _ Hf).
  - rewrite (pause_training_no_record p w Hj),
      (stop_training_no_record p w Hj).
    repeat split. py_unfold. by rewrite Hj.
Qed.

(** ** The environment and the time of a stop *)

Section EnvironmentFacts.

Import TrainingManager.

(** What [start_training] does to the environment. *)
Lemma start_training_environ (project_path : string) (cfg : Config) (w : World) :
  environ (snd (start_training project_path cfg w))
  = match cfg !! "scene_name", writable w, cfg !! "gpu_ids" with
    | Some _, true, Some ids => <["CUDA_VISIBLE_DEVICES" := ids]> (environ w)
    | _, _, _ => environ w
    end.
Proof.
  py_unfold.
  destruct (cfg !! "scene_name") as [name|]; cbv beta iota.
  - destruct (writable w) eqn:Hw; cbv beta iota.
    + destruct (cfg !! "gpu_ids"); cbv beta iota;
        unfold with_environ, with_files; simpl;
        (destruct (launchable w); cbv beta iota;
           [reflexivity | by rewrite broadcast_eq]).
    + rewrite broadcast_eq. by destruct w.
  - rewrite broadcast_eq. by destruct (cfg !! "gpu_ids"), (writable w), w.
Qed.

Lemma start_training_writable (project_path : string) (cfg : Config) (w : World) :
  writable (snd (start_training project_path cfg w)) = writable w.
Proof.
  py_unfold.
  destruct (cfg !! "scene_name") as [name|]; cbv beta iota.
  - destruct (writable w) eqn:Hw; cbv beta iota.
    + destruct (cfg !! "gpu_ids"); cbv beta iota;
        unfold with_environ, with_files; simpl;
        (destruct (launchable w); cbv beta iota;
           [by simpl | by rewrite broadcast_eq]).
    + rewrite broadcast_eq. by destruct w.
  - rewrite broadcast_eq. by destruct w.
Qed.

End EnvironmentFacts.

(** X18. A start whose configuration names GPUs sets
    CUDA_VISIBLE_DEVICES in the environment of the server as soon as the
    configuration file is written, whether or not the launch then
    succeeds, and a start whose configuration names none leaves the
    environment as it is: the selection made for one training is still in
    force for a later training that makes none. *)
Theorem gpu_selection_persists (path1 path2 : string) (cfg1 cfg2 : Config)
  (w : World) (ids : string) :
  is_Some (cfg1 !! "scene_name") ->
  writable w = true ->
  cfg1 !! "gpu_ids" = Some ids ->
  cfg2 !! "gpu_ids" = None ->
  let w1 := snd (TrainingManager.start_training path1 cfg1 w) in
  let w2 := snd (TrainingManager.start_training path2 cfg2 w1) in
  environ w1 !! "CUDA_VISIBLE_DEVICES" = Some ids
  /\ environ w2 = environ w1.
Proof.
  intros [name Hn] Hw Hg1 Hg2. simpl.
  rewrite !start_training_environ, start_training_writable, Hn, Hw, Hg1, Hg2.
  split; [apply lookup_insert_eq|].
  by destruct (cfg2 !! "scene_name").
Qed.

Lemma gpu_selection_persists_witness :
  environ (snd (TrainingManager.start_training "projects/other"
                  SampleConfig.without_gpu
                  (snd (TrainingManager.start_training "projects/demo"
                          SampleConfig.with_gpu Sample.idle))))
  = environ (snd (TrainingManager.start_training "projects/demo"
                    SampleConfig.with_gpu Sample.idle)).
Proof.
  apply (proj2 (gpu_selection_persists "projects/demo" "projects/other"
                  SampleConfig.with_gpu SampleConfig.without_gpu
                  Sample.idle "1"
                  ltac:(eexists; vm_compute; reflexivity)
                  eq_refl
                  ltac:(vm_compute; reflexivity)
                  ltac:(vm_compute; reflexivity))).
Defined.

(** X19. Stopping a job whose child exists takes the child's own time
    to exit when the child is not suspended and exits within the grace
    period of 10 time units, and otherwise the whole grace period and the
    time of the kill. A job that has just been paused is always stopped
    the second way, since its suspended child handles no termination
    request. *)
Theorem stop_duration (p : string) (w : World) (j : Job) (pr : Proc) :
  active_trainings w !! p = Some j ->
  procs w !! process j = Some pr ->
  clock (snd (TrainingManager.stop_training p w))
    = (clock w + stop_time pr)%nat
  /\ (forall d, suspended pr = false -> term_delay pr = Some d ->
        (d < 10)%nat -> stop_time pr = d)
  /\ clock (snd (bind (TrainingManager.pause_training p)
                   (fun _ => TrainingManager.stop_training p) w))
     = (clock w + 10 + kill_delay pr)%nat.
Proof.
  intros Hj Hp. split; [|split].
  - rewrite (stop_training_live p w j pr Hj Hp). by destruct w.
  - intros d Hs Ht Hd. unfold stop_time. rewrite Hs, Ht.
    apply Nat.ltb_lt in Hd. unfold OS.timeout. by rewrite Hd.
  - unfold bind. rewrite (pause_training_live p w j pr Hj Hp).
    rewrite (stop_training_live p _ (with_status j paused)
               (OS.deliver SIGSTOP pr)).
    + destruct w; simpl. unfold stop_time, OS.timeout; simpl. lia.
    + destruct w; simpl in *. by rewrite lookup_alter_eq, Hj.
    + destruct w; simpl in *. by rewrite lookup_insert_eq.
Qed.

Lemma stop_duration_witness :
  clock (snd (bind (TrainingManager.pause_training "demo")
                (fun _ => TrainingManager.stop_training "demo")
                (Sample.with_job running Sample.child)))
  = (0 + 10 + 1)%nat.
Proof.
  apply (proj2 (proj2 (stop_duration "demo"
                         (Sample.with_job running Sample.child)
                         (Sample.job running) Sample.child
                         eq_refl eq_refl))).
Defined.
